(** * jsSMS: the Z80 opcode combinators and opcode tables

    A shallow embedding of [src/compiler/opcodes.js] (the AST node
    library [n], the combinator library [o] and the main [opcodeTable])
    and of the index-table factory [generateIndexTable], together with
    the properties the specification states about them.

    JavaScript values are modelled by [jsval]; a function that may throw
    returns a [result]; the JavaScript functions stored in the tables
    (the pending emitters) are Rocq functions.  A table is first the
    literal of the source, each property with its initialiser (a constant
    or a call [o.NAME(args)]), then the value that evaluating the literal
    against the object [o] gives. *)

From Stdlib Require Import ZArith List String Ascii Bool Lia.
From Stdlib Require Import DecimalString Wf_nat.
Import ListNotations.
Open Scope string_scope.
Open Scope Z_scope.
Set Warnings "-register-all".

(* ===================================================================== *)
(** ** JavaScript values *)
(* ===================================================================== *)

(** The values the combinators and emitters handle.  [Num z] is the
    integer-valued number [z]; the only arithmetic of the source is
    [value + 1] and [currentAddress + 2], exact on integers.  [Obj] is an
    object literal, its properties in source order. *)
Inductive jsval : Type :=
| Undefined
| Null
| Bool (b : bool)
| Num (z : Z)
| NaN
| Str (s : string)
| Arr (elems : list jsval)
| Obj (props : list (string * jsval)).

Coercion Str : string >-> jsval.
Coercion Num : Z >-> jsval.

(** Errors a call can raise: [throw Error(msg)] of the source, and the
    [TypeError] of the language when a non-function is called. *)
Inductive exn : Type :=
| Error (msg : string)
| TypeError (msg : string).

Inductive result (A : Type) : Type :=
| Ok (a : A)
| Throw (e : exn).
Arguments Ok {A} a.
Arguments Throw {A} e.

Definition bind {A B} (r : result A) (k : A -> result B) : result B :=
  match r with
  | Ok a => k a
  | Throw e => Throw e
  end.

Notation "x <- r ;; k" := (bind r (fun x => k))
  (at level 61, r at next level, right associativity).

(** Evaluates a list of computations left to right; the first throw
    aborts the rest. *)
Fixpoint sequence {A} (l : list (result A)) : result (list A) :=
  match l with
  | [] => Ok []
  | r :: rest => a <- r ;; t <- sequence rest ;; Ok (a :: t)
  end.

(** Property lookup in an object literal (keys are distinct in every
    literal of the source). *)
Fixpoint assoc {A} (key : string) (l : list (string * A)) : option A :=
  match l with
  | [] => None
  | (k, v) :: rest => if String.eqb k key then Some v else assoc key rest
  end.

(** [x == undefined]: true of [undefined] and [null] only. *)
Definition eq_undefined (v : jsval) : bool :=
  match v with
  | Undefined | Null => true
  | _ => false
  end.

Definition Z_to_string (z : Z) : string :=
  NilEmpty.string_of_int (Z.to_int z).

Definition join_comma (l : list string) : string :=
  match l with
  | [] => EmptyString
  | s :: rest => fold_left (fun acc t => acc ++ "," ++ t) rest s
  end.

(** [ToString]: an array joins its elements with commas, [null] and
    [undefined] elements printing as nothing; a plain object prints as
    [[object Object]]. *)
Fixpoint to_string (v : jsval) : string :=
  match v with
  | Undefined => "undefined"
  | Null => "null"
  | Bool true => "true"
  | Bool false => "false"
  | Num z => Z_to_string z
  | NaN => "NaN"
  | Str s => s
  | Arr elems =>
      join_comma
        (map (fun e => if eq_undefined e then EmptyString else to_string e) elems)
  | Obj _ => "[object Object]"
  end.

(** [v == s] for a string literal [s] that is not a numeric literal
    (['n'], ['a'] in the source): a string compares by content, an object
    or array through its [ToString]; a number, boolean, [null] or
    [undefined] is never equal to it. *)
Definition eq_string (v : jsval) (s : string) : bool :=
  match v with
  | Str t => String.eqb t s
  | Arr _ | Obj _ => String.eqb (to_string v) s
  | _ => false
  end.

(** [ToNumber] of a value that is not a string; [None] is [NaN]. *)
Definition to_number (v : jsval) : option Z :=
  match v with
  | Null => Some 0
  | Bool b => Some (if b then 1 else 0)
  | Num z => Some z
  | _ => None
  end.

Definition is_primitive_number (v : jsval) : bool :=
  match v with
  | Str _ | Arr _ | Obj _ => false
  | _ => true
  end.

(** The binary [+]: concatenation as soon as one side is a string (or
    an object, whose primitive is a string), numeric addition
    otherwise. *)
Definition js_add (a b : jsval) : jsval :=
  if is_primitive_number a && is_primitive_number b then
    match to_number a, to_number b with
    | Some x, Some y => Num (x + y)
    | _, _ => NaN
    end
  else Str (to_string a ++ to_string b).

Definition upper_ascii (c : ascii) : ascii :=
  let k := nat_of_ascii c in
  if ((97 <=? k) && (k <=? 122))%nat then ascii_of_nat (k - 32) else c.

Definition lower_ascii (c : ascii) : ascii :=
  let k := nat_of_ascii c in
  if ((65 <=? k) && (k <=? 90))%nat then ascii_of_nat (k + 32) else c.

Fixpoint map_string (f : ascii -> ascii) (s : string) : string :=
  match s with
  | EmptyString => EmptyString
  | String c rest => String (f c) (map_string f rest)
  end.

(** [s.toUpperCase()] and [s.toLowerCase()] on ASCII strings. *)
Definition toUpperCase (s : string) : string := map_string upper_ascii s.
Definition toLowerCase (s : string) : string := map_string lower_ascii s.

(** [v.toUpperCase()] on an arbitrary value: only a string has the
    method. *)
Definition call_toUpperCase (v : jsval) : result string :=
  match v with
  | Str s => Ok (toUpperCase s)
  | Undefined | Null =>
      Throw (TypeError "Cannot read property 'toUpperCase' of undefined")
  | _ => Throw (TypeError "toUpperCase is not a function")
  end.

(** ['prefix' + (r1 + r2).toUpperCase()], the accessor names [getBC],
    [setHL], [incDE], ... *)
Definition accessor (prefix : string) (r1 r2 : jsval) : result jsval :=
  up <- call_toUpperCase (js_add r1 r2) ;; Ok (Str (prefix ++ up)).

(** [Array.isArray]. *)
Definition isArray (v : jsval) : bool :=
  match v with
  | Arr _ => true
  | _ => false
  end.

(* ===================================================================== *)
(** ** [n]: the AST node constructors *)
(* ===================================================================== *)

Module n.

Definition IfStatement (test consequent alternate : jsval) : jsval :=
  let alternate := if eq_undefined alternate then Null else alternate in
  Obj [("type", Str "IfStatement");
       ("test", test);
       ("consequent", consequent);
       ("alternate", alternate)].

Definition BlockStatement (body : jsval) : jsval :=
  let body := if eq_undefined body then Arr [] else body in
  Obj [("type", Str "BlockStatement");
       ("body", body)].

Definition ExpressionStatement (expression : jsval) : jsval :=
  Obj [("type", Str "ExpressionStatement");
       ("expression", expression)].

Definition Register (name : jsval) : jsval :=
  Obj [("type", Str "Register");
       ("name", name)].

Definition Identifier (name : jsval) : jsval :=
  Obj [("type", Str "Identifier");
       ("name", name)].

Definition Literal (value : jsval) : jsval :=
  Obj [("type", Str "Literal");
       ("value", value)].

Definition CallExpression (callee args : jsval) : jsval :=
  let args := if eq_undefined args then Arr [] else args in
  let args := if negb (isArray args) then Arr [args] else args in
  Obj [("type", Str "CallExpression");
       ("callee", Identifier callee);
       ("arguments", args)].

Definition AssignmentExpression (operator left right : jsval) : jsval :=
  Obj [("type", Str "AssignmentExpression");
       ("operator", operator);
       ("left", left);
       ("right", right)].

Definition BinaryExpression (operator left right : jsval) : jsval :=
  Obj [("type", Str "BinaryExpression");
       ("operator", operator);
       ("left", left);
       ("right", right)].

Definition MemberExpression (object property : jsval) : jsval :=
  Obj [("type", Str "MemberExpression");
       ("computed", Bool true);
       ("object", object);
       ("property", property)].

Definition ReturnStatement (argument : jsval) : jsval :=
  let argument := if eq_undefined argument then Null else argument in
  Obj [("type", Str "ReturnStatement");
       ("argument", argument)].

End n.

(* ===================================================================== *)
(** ** [o]: the combinator library *)
(* ===================================================================== *)

(** A pending emitter, called as [ast(value, target, currentAddress)];
    it returns [undefined], one statement or an array of statements. *)
Definition emitter : Type := jsval -> jsval -> jsval -> result jsval.

(** What a property of an object of the tables holds: a plain value or a
    function. *)
Inductive prop : Type :=
| PVal (v : jsval)
| PFun (f : emitter).

(** [SZP_TABLE[i]] on the flag lookup table of the CPU. *)
Definition index_table (t : list Z) (i : nat) : jsval :=
  match nth_error t i with
  | Some z => Num z
  | None => Undefined
  end.

Module o.

Section Runtime.

(** Defined with the CPU, outside this file: the half-carry mask and the
    sign/zero/parity lookup table [sms.cpu.SZP_TABLE]. *)
Variable F_HALFCARRY : jsval.
Variable SZP_TABLE : list Z.

Definition READ_MEM8 (value : jsval) : jsval :=
  n.CallExpression "readMem" value.

Definition READ_MEM16 (value : jsval) : jsval :=
  n.CallExpression "readMemWord" value.

Definition NOOP : emitter :=
  fun _ _ _ => Ok Undefined.

Definition LD8 (srcRegister dstRegister1 dstRegister2 : jsval) : emitter :=
  if eq_undefined dstRegister1 && eq_undefined dstRegister2 then
    (* Direct value assignment (ex: LD B,n). *)
    fun value _ _ =>
      Ok (n.ExpressionStatement
            (n.AssignmentExpression "=" (n.Register srcRegister) (n.Literal value)))
  else if eq_undefined dstRegister2 then
    (* Register assignment (ex: LD B,C). *)
    fun _ _ _ =>
      Ok (n.ExpressionStatement
            (n.AssignmentExpression "=" (n.Register srcRegister) (n.Register dstRegister1)))
  else if eq_string dstRegister1 "n" && eq_string dstRegister2 "n" then
    (* Direct address value assignment (ex: LD A,(nn)). *)
    fun value _ _ =>
      Ok (n.ExpressionStatement
            (n.AssignmentExpression "=" (n.Register srcRegister)
               (READ_MEM8 (n.Literal value))))
  else
    (* Register address value assignment (ex: LD A,(BC)). *)
    fun _ _ _ =>
      get <- accessor "get" dstRegister1 dstRegister2 ;;
      Ok (n.ExpressionStatement
            (n.AssignmentExpression "=" (n.Register srcRegister)
               (READ_MEM8 (n.CallExpression get Undefined)))).

Definition LD16 (srcRegister1 srcRegister2 dstRegister1 dstRegister2 : jsval)
  : result emitter :=
  if eq_undefined dstRegister1 && eq_undefined dstRegister2 then
    (* Direct value assignment (ex: LD HL,nn). *)
    Ok (fun value _ _ =>
          set <- accessor "set" srcRegister1 srcRegister2 ;;
          Ok (n.ExpressionStatement (n.CallExpression set (n.Literal value))))
  else if eq_string dstRegister1 "n" && eq_string dstRegister2 "n" then
    (* Direct address value assignment (ex: LD HL,(nn)). *)
    Ok (fun value _ _ =>
          set <- accessor "set" srcRegister1 srcRegister2 ;;
          Ok (n.ExpressionStatement
                (n.CallExpression set (READ_MEM16 (n.Literal value)))))
  else
    Throw (Error "Wrong parameters number").

Definition LD_WRITE_MEM (srcRegister1 srcRegister2 dstRegister1 dstRegister2 : jsval)
  : emitter :=
  if eq_undefined dstRegister1 && eq_undefined dstRegister2 then
    (* Direct value assignment (ex: LD (HL),n). *)
    fun value _ _ =>
      get <- accessor "get" srcRegister1 srcRegister2 ;;
      Ok (n.ExpressionStatement
            (n.CallExpression "writeMem"
               (Arr [n.CallExpression get Undefined; n.Literal value])))
  else if eq_string srcRegister1 "n" && eq_string srcRegister2 "n"
          && eq_undefined dstRegister2 then
    (* Direct address assignment (ex: LD (nn),A). *)
    fun value _ _ =>
      Ok (n.ExpressionStatement
            (n.CallExpression "writeMem"
               (Arr [n.Literal value; n.Register dstRegister1])))
  else if eq_string srcRegister1 "n" && eq_string srcRegister2 "n" then
    (* Direct address assignment (ex: LD (nn),HL). *)
    fun value _ _ =>
      Ok (Arr [
        n.ExpressionStatement
          (n.CallExpression "writeMem"
             (Arr [n.Literal value; n.Register dstRegister2]));
        n.ExpressionStatement
          (n.CallExpression "writeMem"
             (Arr [n.Literal (js_add value 1); n.Register dstRegister1]))
      ])
  else
    (* Register assignment (ex: LD (BC),a). *)
    fun _ _ _ =>
      get <- accessor "get" srcRegister1 srcRegister2 ;;
      Ok (n.ExpressionStatement
            (n.CallExpression "writeMem"
               (Arr [n.CallExpression get Undefined; n.Register dstRegister1]))).

Definition LD_SP : emitter :=
  fun value _ _ =>
    Ok (n.ExpressionStatement
          (n.AssignmentExpression "=" (n.Identifier "sp") (n.Literal value))).

Definition INC8 (register : jsval) : emitter :=
  fun _ _ _ =>
    Ok (n.ExpressionStatement
          (n.AssignmentExpression "=" (n.Register register)
             (n.CallExpression "inc8" (n.Register register)))).

Definition INC16 (register1 register2 : jsval) : emitter :=
  fun _ _ _ =>
    inc <- accessor "inc" register1 register2 ;;
    Ok (n.ExpressionStatement (n.CallExpression inc Undefined)).

Definition DEC8 (register : jsval) : emitter :=
  fun _ _ _ =>
    Ok (n.ExpressionStatement
          (n.AssignmentExpression "=" (n.Register register)
             (n.CallExpression "dec8" (n.Register register)))).

Definition DEC16 (register1 register2 : jsval) : emitter :=
  fun _ _ _ =>
    dec <- accessor "dec" register1 register2 ;;
    Ok (n.ExpressionStatement (n.CallExpression dec Undefined)).

Definition ADD16 (register1 register2 register3 register4 : jsval) : emitter :=
  fun _ _ _ =>
    (* setHL(add16(getHL(), getBC())); *)
    set <- accessor "set" register1 register2 ;;
    get1 <- accessor "get" register1 register2 ;;
    get2 <- accessor "get" register3 register4 ;;
    Ok (n.ExpressionStatement
          (n.CallExpression set
             (n.CallExpression "add16"
                (Arr [n.CallExpression get1 Undefined;
                      n.CallExpression get2 Undefined])))).

Definition EX_AF : emitter :=
  fun _ _ _ => Ok (n.ExpressionStatement (n.CallExpression "exAF" Undefined)).

Definition RLA : emitter :=
  fun _ _ _ => Ok (n.ExpressionStatement (n.CallExpression "rla_a" Undefined)).

Definition RRA : emitter :=
  fun _ _ _ => Ok (n.ExpressionStatement (n.CallExpression "rra_a" Undefined)).

Definition ADD (register1 register2 : jsval) : emitter :=
  if eq_undefined register1 && eq_undefined register2 then
    (* 0 arguments. *)
    fun value _ _ =>
      Ok (n.ExpressionStatement (n.CallExpression "add_a" (n.Literal value)))
  else if eq_undefined register2 then
    (* 1 argument. *)
    fun _ _ _ =>
      Ok (n.ExpressionStatement (n.CallExpression "add_a" (n.Register register1)))
  else
    (* 2 arguments. *)
    fun _ _ _ =>
      get <- accessor "get" register1 register2 ;;
      Ok (n.ExpressionStatement
            (n.CallExpression "add_a" (READ_MEM8 (n.CallExpression get Undefined)))).

Definition SUB (register : jsval) : emitter :=
  if eq_undefined register then
    (* sub_a(value); *)
    fun value _ _ =>
      Ok (n.ExpressionStatement (n.CallExpression "sub_a" (n.Literal value)))
  else
    (* sub_a(b); *)
    fun _ _ _ =>
      Ok (n.ExpressionStatement (n.CallExpression "sub_a" (n.Register register))).

Definition AND (register : jsval) : emitter :=
  if eq_undefined register then
    (* a &= value; f = SZP_TABLE[a] | F_HALFCARRY; *)
    fun value _ _ =>
      Ok (Arr [
        n.ExpressionStatement
          (n.AssignmentExpression "&=" (n.Register "a") (n.Literal value));
        n.ExpressionStatement
          (n.AssignmentExpression "=" (n.Register "f")
             (n.BinaryExpression "|"
                (n.MemberExpression (n.Identifier "SZP_TABLE") (n.Register "a"))
                (n.Literal F_HALFCARRY)))
      ])
  else if negb (eq_string register "a") then
    (* a &= b; f = SZP_TABLE[a] | F_HALFCARRY; *)
    fun _ _ _ =>
      Ok (Arr [
        n.ExpressionStatement
          (n.AssignmentExpression "&=" (n.Register "a") (n.Register register));
        n.ExpressionStatement
          (n.AssignmentExpression "=" (n.Register "f")
             (n.BinaryExpression "|"
                (n.MemberExpression (n.Identifier "SZP_TABLE") (n.Register "a"))
                (n.Literal F_HALFCARRY)))
      ])
  else
    (* f = SZP_TABLE[a] | F_HALFCARRY; *)
    fun _ _ _ =>
      Ok (n.ExpressionStatement
      (n.AssignmentExpression "=" (n.Register "f")
         (n.BinaryExpression "|"
            (n.MemberExpression (n.Identifier "SZP_TABLE") (n.Register "a"))
            (n.Literal F_HALFCARRY)))).

Definition XOR (register : jsval) : emitter :=
  if eq_undefined register then
    (* a ^= value; f = SZP_TABLE[a]; *)
    fun value _ _ =>
      Ok (Arr [
        n.ExpressionStatement
          (n.AssignmentExpression "^=" (n.Register "a") (n.Literal value));
        n.ExpressionStatement
          (n.AssignmentExpression "=" (n.Register "f")
             (n.MemberExpression (n.Identifier "SZP_TABLE") (n.Register "a")))
      ])
  else if negb (eq_string register "a") then
    (* a ^= b; f = SZP_TABLE[a]; *)
    fun _ _ _ =>
      Ok (Arr [
        n.ExpressionStatement
          (n.AssignmentExpression "^=" (n.Register "a") (n.Register register));
        n.ExpressionStatement
          (n.AssignmentExpression "=" (n.Register "f")
             (n.MemberExpression (n.Identifier "SZP_TABLE") (n.Register "a")))
      ])
  else
    (* a = 0; f = SZP_TABLE[0]; *)
    fun _ _ _ =>
      Ok (Arr [
        n.ExpressionStatement
          (n.AssignmentExpression "=" (n.Register "a") (n.Literal 0));
        n.ExpressionStatement
          (n.AssignmentExpression "=" (n.Register "f")
             (n.Literal (index_table SZP_TABLE 0)))
      ]).

Definition OR (register : jsval) : emitter :=
  if negb (eq_string register "a") then
    (* a |= b; f = SZP_TABLE[a]; *)
    fun _ _ _ =>
      Ok (Arr [
        n.ExpressionStatement
          (n.AssignmentExpression "|=" (n.Register "a") (n.Register register));
        n.ExpressionStatement
          (n.AssignmentExpression "=" (n.Register "f")
             (n.MemberExpression (n.Identifier "SZP_TABLE") (n.Register "a")))
      ])
  else
    (* f = SZP_TABLE[a]; *)
    fun _ _ _ =>
      Ok (n.ExpressionStatement
      (n.AssignmentExpression "=" (n.Register "f")
         (n.MemberExpression (n.Identifier "SZP_TABLE") (n.Register "a")))).

Definition JR (test : jsval) : emitter :=
  fun _ target _ =>
    (* if (test) {pc = target; tstates -= 5;} *)
    Ok (n.IfStatement
          test
          (n.BlockStatement (Arr [
             n.ExpressionStatement
               (n.AssignmentExpression "=" (n.Identifier "pc") (n.Literal target));
             n.ExpressionStatement
               (n.AssignmentExpression "-=" (n.Identifier "tstates") (n.Literal 5))
           ]))
          Undefined).

Definition DJNZ : emitter :=
  fun _ target _ =>
    (* b = (b - 1) & 0xFF; if (b != 0) {pc = target; tstates -= 5;} *)
    jr <- JR (n.BinaryExpression "!=" (n.Register "b") (n.Literal 0))
             Undefined target Undefined ;;
    Ok (Arr [
      n.ExpressionStatement
        (n.AssignmentExpression "=" (n.Register "b")
           (n.BinaryExpression "&"
              (n.BinaryExpression "-" (n.Register "b") (n.Literal 1))
              (n.Literal 255)));
      jr
    ]).

Definition RET (operator bitMask : jsval) : emitter :=
  if eq_undefined operator && eq_undefined bitMask then
    fun _ _ _ =>
      (* pc = readMemWord(sp); sp += 2; return; *)
      Ok (Arr [
        n.ExpressionStatement
          (n.AssignmentExpression "=" (n.Identifier "pc")
             (READ_MEM16 (n.Identifier "sp")));
        n.ExpressionStatement
          (n.AssignmentExpression "+=" (n.Identifier "sp") (n.Literal 2));
        n.ReturnStatement Undefined
      ])
  else
    fun _ _ _ =>
      (* ret((f & F_ZERO) == 0); *)
      Ok (n.ExpressionStatement
            (n.CallExpression "ret" (n.BinaryExpression operator
               (n.BinaryExpression "&" (n.Register "f") (n.Literal bitMask))
               (n.Literal 0)))).

Definition JP (operator bitMask : jsval) : emitter :=
  if eq_undefined operator && eq_undefined bitMask then
    fun _ target _ =>
      (* pc = readMemWord(target); return; *)
      Ok (Arr [
        n.ExpressionStatement
          (n.AssignmentExpression "=" (n.Identifier "pc") (n.Literal target));
        n.ReturnStatement Undefined
      ])
  else
    fun _ target _ =>
      (* if ((f & F_SIGN) != 0) {pc = target; return;} *)
      Ok (n.IfStatement
            (n.BinaryExpression operator
               (n.BinaryExpression "&" (n.Register "f") (n.Literal bitMask))
               (n.Literal 0))
            (n.BlockStatement (Arr [
               n.ExpressionStatement
                 (n.AssignmentExpression "=" (n.Identifier "pc") (n.Literal target));
               n.ReturnStatement Undefined
             ]))
            Undefined).

Definition CALL (operator bitMask : jsval) : emitter :=
  if eq_undefined operator && eq_undefined bitMask then
    fun _ target currentAddress =>
      (* push1(currentAddress + 2); pc = target; return; *)
      Ok (Arr [
        n.ExpressionStatement
          (n.CallExpression "push1" (n.Literal (js_add currentAddress 2)));
        n.ExpressionStatement
          (n.AssignmentExpression "=" (n.Identifier "pc") (n.Literal target));
        n.ReturnStatement Undefined
      ])
  else
    fun _ target currentAddress =>
      (* if ((f & F_ZERO) == 0) {push1(currentAddress + 2); pc = target; tstates -= 7; return;} *)
      Ok (n.IfStatement
            (n.BinaryExpression operator
               (n.BinaryExpression "&" (n.Register "f") (n.Literal bitMask))
               (n.Literal 0))
            (n.BlockStatement (Arr [
               n.ExpressionStatement
                 (n.CallExpression "push1" (n.Literal (js_add currentAddress 2)));
               n.ExpressionStatement
                 (n.AssignmentExpression "=" (n.Identifier "pc") (n.Literal target));
               n.ExpressionStatement
                 (n.AssignmentExpression "-=" (n.Identifier "tstates") (n.Literal 7));
               n.ReturnStatement Undefined
             ]))
            Undefined).

Definition RST (targetAddress : jsval) : emitter :=
  fun _ _ currentAddress =>
    (* push1(currentAddress); pc = target; return; *)
    Ok (Arr [
      n.ExpressionStatement
        (n.CallExpression "push1" (n.Literal currentAddress));
      n.ExpressionStatement
        (n.AssignmentExpression "=" (n.Identifier "pc") (n.Literal targetAddress));
      n.ReturnStatement Undefined
    ]).

(** The object [o] itself: its properties by name, each a function of
    the argument list (an argument that is not passed is [undefined]). *)
Definition arg (i : nat) (args : list jsval) : jsval := nth i args Undefined.

Definition properties : list (string * (list jsval -> result prop)) := [
  ("NOOP", fun _ => Ok (PFun NOOP));
  ("LD8", fun a => Ok (PFun (LD8 (arg 0 a) (arg 1 a) (arg 2 a))));
  ("LD16", fun a => f <- LD16 (arg 0 a) (arg 1 a) (arg 2 a) (arg 3 a) ;; Ok (PFun f));
  ("LD_WRITE_MEM", fun a => Ok (PFun (LD_WRITE_MEM (arg 0 a) (arg 1 a) (arg 2 a) (arg 3 a))));
  ("LD_SP", fun _ => Ok (PFun LD_SP));
  ("INC8", fun a => Ok (PFun (INC8 (arg 0 a))));
  ("INC16", fun a => Ok (PFun (INC16 (arg 0 a) (arg 1 a))));
  ("DEC8", fun a => Ok (PFun (DEC8 (arg 0 a))));
  ("DEC16", fun a => Ok (PFun (DEC16 (arg 0 a) (arg 1 a))));
  ("ADD16", fun a => Ok (PFun (ADD16 (arg 0 a) (arg 1 a) (arg 2 a) (arg 3 a))));
  ("EX_AF", fun _ => Ok (PFun EX_AF));
  ("RLA", fun _ => Ok (PFun RLA));
  ("RRA", fun _ => Ok (PFun RRA));
  ("ADD", fun a => Ok (PFun (ADD (arg 0 a) (arg 1 a))));
  ("SUB", fun a => Ok (PFun (SUB (arg 0 a))));
  ("AND", fun a => Ok (PFun (AND (arg 0 a))));
  ("XOR", fun a => Ok (PFun (XOR (arg 0 a))));
  ("OR", fun a => Ok (PFun (OR (arg 0 a))));
  ("JR", fun a => Ok (PFun (JR (arg 0 a))));
  ("DJNZ", fun _ => Ok (PFun DJNZ));
  ("RET", fun a => Ok (PFun (RET (arg 0 a) (arg 1 a))));
  ("JP", fun a => Ok (PFun (JP (arg 0 a) (arg 1 a))));
  ("CALL", fun a => Ok (PFun (CALL (arg 0 a) (arg 1 a))));
  ("RST", fun a => Ok (PFun (RST (arg 0 a))));
  ("READ_MEM8", fun a => Ok (PVal (READ_MEM8 (arg 0 a))));
  ("READ_MEM16", fun a => Ok (PVal (READ_MEM16 (arg 0 a))))
].

End Runtime.

End o.

(* ===================================================================== *)
(** ** Object literals of the tables *)
(* ===================================================================== *)

(** An object holding functions, as [o] does. *)
Definition object : Type := list (string * (list jsval -> result prop)).

(** [o.name(args)]: a property that is missing is [undefined], and
    calling it is a [TypeError]. *)
Definition call (o : object) (name : string) (args : list jsval) : result prop :=
  match assoc name o with
  | Some f => f args
  | None => Throw (TypeError ("o." ++ name ++ " is not a function"))
  end.

(** A property initialiser of the table literals: a literal or constant,
    or a call [o.name(args)] of a combinator. *)
Inductive initialiser : Type :=
| Lit (v : jsval)
| Call (name : string) (args : list jsval).

Definition eval_initialiser (o : object) (i : initialiser) : result prop :=
  match i with
  | Lit v => Ok (PVal v)
  | Call name args => call o name args
  end.

(** An object literal [{k1: e1, k2: e2, ...}]: the initialisers in source
    order; evaluating it evaluates them in that order, and the first
    throw aborts. *)
Definition object_literal : Type := list (string * initialiser).

Definition descriptor : Type := list (string * prop).

Fixpoint eval_literal (o : object) (l : object_literal) : result descriptor :=
  match l with
  | [] => Ok []
  | (k, i) :: rest =>
      v <- eval_initialiser o i ;; t <- eval_literal o rest ;; Ok ((k, v) :: t)
  end.

(** The operand kinds. *)
Definition UINT8 : jsval := 1.
Definition INT8 : jsval := 2.
Definition UINT16 : jsval := 3.

(* ===================================================================== *)
(** ** The main opcode table *)
(* ===================================================================== *)

Section Tables.

(** The flag masks and the flag lookup table are defined with the CPU,
    outside this file. *)
Variables F_CARRY F_ZERO F_PARITY F_SIGN F_HALFCARRY : jsval.
Variable SZP_TABLE : list Z.

(** The global [o]. *)
Definition o_object : object := o.properties F_HALFCARRY SZP_TABLE.

(** The array literal of [opcodeTable], one object literal per opcode. *)
Definition opcodeTable_literal : list object_literal :=
  [
    (* 0x00 *)
    [("name", Lit (Str "NOP"));
     ("ast", Call "NOOP" [])];
    (* 0x01 *)
    [("name", Lit (Str "LD BC,nn"));
     ("ast", Call "LD16" [Str "b"; Str "c"]);
     ("operand", Lit UINT16)];
    (* 0x02 *)
    [("name", Lit (Str "LD (BC),A"));
     ("ast", Call "LD_WRITE_MEM" [Str "b"; Str "c"; Str "a"])];
    (* 0x03 *)
    [("name", Lit (Str "INC BC"));
     ("ast", Call "INC16" [Str "b"; Str "c"])];
    (* 0x04 *)
    [("name", Lit (Str "INC B"));
     ("ast", Call "INC8" [Str "b"])];
    (* 0x05 *)
    [("name", Lit (Str "DEC B"));
     ("ast", Call "DEC8" [Str "b"])];
    (* 0x06 *)
    [("name", Lit (Str "LD B,n"));
     ("ast", Call "LD8" [Str "b"]);
     ("operand", Lit UINT8)];
    (* 0x07 *)
    [("name", Lit (Str "RLCA"))];
    (* 0x08 *)
    [("name", Lit (Str "EX AF AF'"));
     ("ast", Call "EX_AF" [])];
    (* 0x09 *)
    [("name", Lit (Str "ADD HL,BC"));
     ("ast", Call "ADD16" [Str "h"; Str "l"; Str "b"; Str "c"])];
    (* 0x0A *)
    [("name", Lit (Str "LD A,(BC)"));
     ("ast", Call "LD8" [Str "a"; Str "b"; Str "c"])];
    (* 0x0B *)
    [("name", Lit (Str "DEC BC"));
     ("ast", Call "DEC16" [Str "b"; Str "c"])];
    (* 0x0C *)
    [("name", Lit (Str "INC C"));
     ("ast", Call "INC8" [Str "c"])];
    (* 0x0D *)
    [("name", Lit (Str "DEC C"));
     ("ast", Call "DEC8" [Str "c"])];
    (* 0x0E *)
    [("name", Lit (Str "LD C,n"));
     ("ast", Call "LD8" [Str "c"]);
     ("operand", Lit UINT8)];
    (* 0x0F *)
    [("name", Lit (Str "RRCA"))];
    (* 0x10 *)
    [("name", Lit (Str "DJNZ (PC+e)"));
     ("ast", Call "DJNZ" []);
     ("operand", Lit INT8)];
    (* 0x11 *)
    [("name", Lit (Str "LD DE,nn"));
     ("ast", Call "LD16" [Str "d"; Str "e"]);
     ("operand", Lit UINT16)];
    (* 0x12 *)
    [("name", Lit (Str "LD (DE),A"));
     ("ast", Call "LD_WRITE_MEM" [Str "d"; Str "e"; Str "a"])];
    (* 0x13 *)
    [("name", Lit (Str "INC DE"));
     ("ast", Call "INC16" [Str "d"; Str "e"])];
    (* 0x14 *)
    [("name", Lit (Str "INC D"));
     ("ast", Call "INC8" [Str "d"])];
    (* 0x15 *)
    [("name", Lit (Str "DEC D"));
     ("ast", Call "DEC8" [Str "d"])];
    (* 0x16 *)
    [("name", Lit (Str "LD D,n"));
     ("ast", Call "LD8" [Str "d"]);
     ("operand", Lit UINT8)];
    (* 0x17 *)
    [("name", Lit (Str "RLA"));
     ("ast", Call "RLA" [])];
    (* 0x18 *)
    [("name", Lit (Str "JR (PC+e)"));
     ("operand", Lit INT8)];
    (* 0x19 *)
    [("name", Lit (Str "ADD HL,DE"));
     ("ast", Call "ADD16" [Str "h"; Str "l"; Str "d"; Str "e"])];
    (* 0x1A *)
    [("name", Lit (Str "LD A,(DE)"));
     ("ast", Call "LD8" [Str "a"; Str "d"; Str "e"])];
    (* 0x1B *)
    [("ame", Lit (Str "DEC DE"));
     ("ast", Call "DEC16" [Str "d"; Str "e"])];
    (* 0x1C *)
    [("name", Lit (Str "INC E"));
     ("ast", Call "INC8" [Str "e"])];
    (* 0x1D *)
    [("name", Lit (Str "DEC E"));
     ("ast", Call "DEC8" [Str "e"])];
    (* 0x1E *)
    [("name", Lit (Str "LD E,n"));
     ("ast", Call "LD8" [Str "e"]);
     ("operand", Lit UINT8)];
    (* 0x1F *)
    [("name", Lit (Str "RRA"));
     ("ast", Call "RRA" [])];
    (* 0x20 *)
    [("name", Lit (Str "JR NZ,(PC+e)"));
     ("operand", Lit INT8)];
    (* 0x21 *)
    [("name", Lit (Str "LD HL,nn"));
     ("ast", Call "LD16" [Str "h"; Str "l"]);
     ("operand", Lit UINT16)];
    (* 0x22 *)
    [("name", Lit (Str "LD (nn),HL"));
     ("ast", Call "LD_WRITE_MEM" [Str "n"; Str "n"; Str "h"; Str "l"]);
     ("operand", Lit UINT16)];
    (* 0x23 *)
    [("name", Lit (Str "INC HL"));
     ("ast", Call "INC16" [Str "h"; Str "l"])];
    (* 0x24 *)
    [("name", Lit (Str "INC H"))];
    (* 0x25 *)
    [("name", Lit (Str "DEC H"))];
    (* 0x26 *)
    [("name", Lit (Str "LD H,n"));
     ("ast", Call "LD8" [Str "h"]);
     ("operand", Lit UINT8)];
    (* 0x27 *)
    [("name", Lit (Str "DAA"))];
    (* 0x28 *)
    [("name", Lit (Str "JR Z,(PC+e)"));
     ("operand", Lit INT8)];
    (* 0x29 *)
    [("name", Lit (Str "ADD HL,HL"));
     ("ast", Call "ADD16" [Str "h"; Str "l"; Str "h"; Str "l"])];
    (* 0x2A *)
    [("name", Lit (Str "LD HL,(nn)"));
     ("ast", Call "LD16" [Str "h"; Str "l"; Str "n"; Str "n"]);
     ("operand", Lit UINT16)];
    (* 0x2B *)
    [("name", Lit (Str "DEC HL"))];
    (* 0x2C *)
    [("name", Lit (Str "INC L"))];
    (* 0x2D *)
    [("name", Lit (Str "DEC L"))];
    (* 0x2E *)
    [("name", Lit (Str "LD L,n"));
     ("ast", Call "LD8" [Str "l"]);
     ("operand", Lit UINT8)];
    (* 0x2F *)
    [("name", Lit (Str "CPL"))];
    (* 0x30 *)
    [("name", Lit (Str "JR NC,(PC+e)"));
     ("operand", Lit INT8)];
    (* 0x31 *)
    [("name", Lit (Str "LD SP,nn"));
     ("ast", Call "LD_SP" []);
     ("operand", Lit UINT16)];
    (* 0x32 *)
    [("name", Lit (Str "LD (nn),A"));
     ("ast", Call "LD_WRITE_MEM" [Str "n"; Str "n"; Str "a"]);
     ("operand", Lit UINT16)];
    (* 0x33 *)
    [("name", Lit (Str "INC SP"))];
    (* 0x34 *)
    [("name", Lit (Str "INC (HL)"))];
    (* 0x35 *)
    [("name", Lit (Str "DEC (HL)"))];
    (* 0x36 *)
    [("name", Lit (Str "LD (HL),n"));
     ("ast", Call "LD_WRITE_MEM" [Str "h"; Str "l"]);
     ("operand", Lit UINT8)];
    (* 0x37 *)
    [("name", Lit (Str "SCF"))];
    (* 0x38 *)
    [("name", Lit (Str "JR C,(PC+e)"));
     ("operand", Lit INT8)];
    (* 0x39 *)
    [("name", Lit (Str "ADD HL,SP"))];
    (* 0x3A *)
    [("name", Lit (Str "LD A,(nn)"));
     ("ast", Call "LD8" [Str "a"; Str "n"; Str "n"]);
     ("operand", Lit UINT16)];
    (* 0x3B *)
    [("name", Lit (Str "DEC SP"))];
    (* 0x3C *)
    [("name", Lit (Str "INC A"));
     ("ast", Call "INC8" [Str "a"])];
    (* 0x3D *)
    [("name", Lit (Str "DEC A"));
     ("ast", Call "DEC8" [Str "a"])];
    (* 0x3E *)
    [("name", Lit (Str "LD A,n"));
     ("ast", Call "LD8" [Str "a"]);
     ("operand", Lit UINT8)];
    (* 0x3F *)
    [("name", Lit (Str "CCF"))];
    (* 0x40 *)
    [("name", Lit (Str "LD B,B"));
     ("ast", Call "NOOP" []);
     ("operand", Lit UINT8)];
    (* 0x41 *)
    [("name", Lit (Str "LD B,C"));
     ("ast", Call "LD8" [Str "b"; Str "c"])];
    (* 0x42 *)
    [("name", Lit (Str "LD B,D"));
     ("ast", Call "LD8" [Str "b"; Str "d"])];
    (* 0x43 *)
    [("name", Lit (Str "LD B,E"));
     ("ast", Call "LD8" [Str "b"; Str "e"])];
    (* 0x44 *)
    [("name", Lit (Str "LD B,H"));
     ("ast", Call "LD8" [Str "b"; Str "h"])];
    (* 0x45 *)
    [("name", Lit (Str "LD B,L"));
     ("ast", Call "LD8" [Str "b"; Str "l"])];
    (* 0x46 *)
    [("name", Lit (Str "LD B,(HL)"))];
    (* 0x47 *)
    [("name", Lit (Str "LD B,A"));
     ("ast", Call "LD8" [Str "b"; Str "a"])];
    (* 0x48 *)
    [("name", Lit (Str "LD C,B"));
     ("ast", Call "LD8" [Str "c"; Str "b"])];
    (* 0x49 *)
    [("name", Lit (Str "LD C,C"));
     ("ast", Call "NOOP" [])];
    (* 0x4A *)
    [("name", Lit (Str "LD C,D"));
     ("ast", Call "LD8" [Str "c"; Str "d"])];
    (* 0x4B *)
    [("name", Lit (Str "LD C,E"));
     ("ast", Call "LD8" [Str "c"; Str "e"])];
    (* 0x4C *)
    [("name", Lit (Str "LD C,H"));
     ("ast", Call "LD8" [Str "c"; Str "h"])];
    (* 0x4D *)
    [("name", Lit (Str "LD C,L"));
     ("ast", Call "LD8" [Str "c"; Str "l"])];
    (* 0x4E *)
    [("name", Lit (Str "LD C,(HL)"))];
    (* 0x4F *)
    [("name", Lit (Str "LD C,A"));
     ("ast", Call "LD8" [Str "c"; Str "a"])];
    (* 0x50 *)
    [("name", Lit (Str "LD D,B"));
     ("ast", Call "LD8" [Str "d"; Str "b"])];
    (* 0x51 *)
    [("name", Lit (Str "LD D,C"));
     ("ast", Call "LD8" [Str "d"; Str "c"])];
    (* 0x52 *)
    [("name", Lit (Str "LD D,D"));
     ("ast", Call "NOOP" [])];
    (* 0x53 *)
    [("name", Lit (Str "LD D,E"));
     ("ast", Call "LD8" [Str "d"; Str "e"])];
    (* 0x54 *)
    [("name", Lit (Str "LD D,H"));
     ("ast", Call "LD8" [Str "d"; Str "h"])];
    (* 0x55 *)
    [("name", Lit (Str "LD D,L"));
     ("ast", Call "LD8" [Str "d"; Str "l"])];
    (* 0x56 *)
    [("name", Lit (Str "LD D,(HL)"))];
    (* 0x57 *)
    [("name", Lit (Str "LD D,A"));
     ("ast", Call "LD8" [Str "d"; Str "a"])];
    (* 0x58 *)
    [("name", Lit (Str "LD E,B"));
     ("ast", Call "LD8" [Str "e"; Str "b"])];
    (* 0x59 *)
    [("name", Lit (Str "LD E,C"));
     ("ast", Call "LD8" [Str "e"; Str "c"])];
    (* 0x5A *)
    [("name", Lit (Str "LD E,D"));
     ("ast", Call "LD8" [Str "e"; Str "d"])];
    (* 0x5B *)
    [("name", Lit (Str "LD E,E"));
     ("ast", Call "NOOP" [])];
    (* 0x5C *)
    [("name", Lit (Str "LD E,H"));
     ("ast", Call "LD8" [Str "e"; Str "h"])];
    (* 0x5D *)
    [("name", Lit (Str "LD E,L"));
     ("ast", Call "LD8" [Str "e"; Str "l"])];
    (* 0x5E *)
    [("name", Lit (Str "LD E,(HL)"))];
    (* 0x5F *)
    [("name", Lit (Str "LD E,A"));
     ("ast", Call "LD8" [Str "e"; Str "a"])];
    (* 0x60 *)
    [("name", Lit (Str "LD H,B"));
     ("ast", Call "LD8" [Str "h"; Str "b"])];
    (* 0x61 *)
    [("name", Lit (Str "LD H,C"));
     ("ast", Call "LD8" [Str "h"; Str "c"])];
    (* 0x62 *)
    [("name", Lit (Str "LD H,D"));
     ("ast", Call "LD8" [Str "h"; Str "d"])];
    (* 0x63 *)
    [("name", Lit (Str "LD H,E"));
     ("ast", Call "LD8" [Str "h"; Str "e"])];
    (* 0x64 *)
    [("name", Lit (Str "LD H,H"));
     ("ast", Call "NOOP" [])];
    (* 0x65 *)
    [("name", Lit (Str "LD H,L"));
     ("ast", Call "LD8" [Str "h"; Str "l"])];
    (* 0x66 *)
    [("name", Lit (Str "LD H,(HL)"))];
    (* 0x67 *)
    [("name", Lit (Str "LD H,A"));
     ("ast", Call "LD8" [Str "h"; Str "a"])];
    (* 0x68 *)
    [("name", Lit (Str "LD L,B"));
     ("ast", Call "LD8" [Str "l"; Str "b"])];
    (* 0x69 *)
    [("name", Lit (Str "LD L,C"));
     ("ast", Call "LD8" [Str "l"; Str "c"])];
    (* 0x6A *)
    [("name", Lit (Str "LD L,D"));
     ("ast", Call "LD8" [Str "l"; Str "d"])];
    (* 0x6B *)
    [("name", Lit (Str "LD L,E"));
     ("ast", Call "LD8" [Str "l"; Str "e"])];
    (* 0x6C *)
    [("name", Lit (Str "LD L,H"));
     ("ast", Call "LD8" [Str "l"; Str "h"])];
    (* 0x6D *)
    [("name", Lit (Str "LD L,L"));
     ("ast", Call "NOOP" [])];
    (* 0x6E *)
    [("name", Lit (Str "LD L,(HL)"))];
    (* 0x6F *)
    [("name", Lit (Str "LD L,A"));
     ("ast", Call "LD8" [Str "l"; Str "a"])];
    (* 0x70 *)
    [("name", Lit (Str "LD (HL),B"))];
    (* 0x71 *)
    [("name", Lit (Str "LD (HL),C"))];
    (* 0x72 *)
    [("name", Lit (Str "LD (HL),D"))];
    (* 0x73 *)
    [("name", Lit (Str "LD (HL),E"))];
    (* 0x74 *)
    [("name", Lit (Str "LD (HL),H"))];
    (* 0x75 *)
    [("name", Lit (Str "LD (HL),L"))];
    (* 0x76 *)
    [("name", Lit (Str "HALT"))];
    (* 0x77 *)
    [("name", Lit (Str "LD (HL),A"))];
    (* 0x78 *)
    [("name", Lit (Str "LD A,B"));
     ("ast", Call "LD8" [Str "a"; Str "b"])];
    (* 0x79 *)
    [("name", Lit (Str "LD A,C"));
     ("ast", Call "LD8" [Str "a"; Str "c"])];
    (* 0x7A *)
    [("name", Lit (Str "LD A,D"));
     ("ast", Call "LD8" [Str "a"; Str "d"])];
    (* 0x7B *)
    [("name", Lit (Str "LD A,E"));
     ("ast", Call "LD8" [Str "a"; Str "e"])];
    (* 0x7C *)
    [("name", Lit (Str "LD A,H"));
     ("ast", Call "LD8" [Str "a"; Str "h"])];
    (* 0x7D *)
    [("name", Lit (Str "LD A,L"));
     ("ast", Call "LD8" [Str "a"; Str "l"])];
    (* 0x7E *)
    [("name", Lit (Str "LD A,(HL)"));
     ("ast", Call "LD8" [Str "a"; Str "h"; Str "l"])];
    (* 0x7F *)
    [("name", Lit (Str "LD A,A"));
     ("ast", Call "NOOP" [])];
    (* 0x80 *)
    [("name", Lit (Str "ADD A,B"));
     ("ast", Call "ADD" [Str "b"])];
    (* 0x81 *)
    [("name", Lit (Str "ADD A,C"));
     ("ast", Call "ADD" [Str "c"])];
    (* 0x82 *)
    [("name", Lit (Str "ADD A,D"));
     ("ast", Call "ADD" [Str "d"])];
    (* 0x83 *)
    [("name", Lit (Str "ADD A,E"));
     ("ast", Call "ADD" [Str "e"])];
    (* 0x84 *)
    [("name", Lit (Str "ADD A,H"));
     ("ast", Call "ADD" [Str "h"])];
    (* 0x85 *)
    [("name", Lit (Str "ADD A,L"));
     ("ast", Call "ADD" [Str "l"])];
    (* 0x86 *)
    [("name", Lit (Str "ADD A,(HL)"))];
    (* 0x87 *)
    [("name", Lit (Str "ADD A,A"));
     ("ast", Call "ADD" [Str "a"])];
    (* 0x88 *)
    [("name", Lit (Str "ADC A,B"))];
    (* 0x89 *)
    [("name", Lit (Str "ADC A,C"))];
    (* 0x8A *)
    [("name", Lit (Str "ADC A,D"))];
    (* 0x8B *)
    [("name", Lit (Str "ADC A,E"))];
    (* 0x8C *)
    [("name", Lit (Str "ADC A,H"))];
    (* 0x8D *)
    [("name", Lit (Str "ADC A,L"))];
    (* 0x8E *)
    [("name", Lit (Str "ADC A,(HL)"))];
    (* 0x8F *)
    [("name", Lit (Str "ADC A,A"))];
    (* 0x90 *)
    [("name", Lit (Str "SUB A,B"));
     ("ast", Call "SUB" [Str "b"])];
    (* 0x91 *)
    [("name", Lit (Str "SUB A,C"));
     ("ast", Call "SUB" [Str "c"])];
    (* 0x92 *)
    [("name", Lit (Str "SUB A,D"));
     ("ast", Call "SUB" [Str "d"])];
    (* 0x93 *)
    [("name", Lit (Str "SUB A,E"));
     ("ast", Call "SUB" [Str "e"])];
    (* 0x94 *)
    [("name", Lit (Str "SUB A,H"));
     ("ast", Call "SUB" [Str "h"])];
    (* 0x95 *)
    [("name", Lit (Str "SUB A,L"));
     ("ast", Call "SUB" [Str "l"])];
    (* 0x96 *)
    [("name", Lit (Str "SUB A,(HL)"))];
    (* 0x97 *)
    [("name", Lit (Str "SUB A,A"));
     ("ast", Call "SUB" [Str "a"])];
    (* 0x98 *)
    [("name", Lit (Str "SBC A,B"))];
    (* 0x99 *)
    [("name", Lit (Str "SBC A,C"))];
    (* 0x9A *)
    [("name", Lit (Str "SBC A,D"))];
    (* 0x9B *)
    [("name", Lit (Str "SBC A,E"))];
    (* 0x9C *)
    [("name", Lit (Str "SBC A,H"))];
    (* 0x9D *)
    [("name", Lit (Str "SBC A,L"))];
    (* 0x9E *)
    [("name", Lit (Str "SBC A,(HL)"))];
    (* 0x9F *)
    [("name", Lit (Str "SBC A,A"))];
    (* 0xA0 *)
    [("name", Lit (Str "AND A,B"));
     ("ast", Call "AND" [Str "b"])];
    (* 0xA1 *)
    [("name", Lit (Str "AND A,C"));
     ("ast", Call "AND" [Str "c"])];
    (* 0xA2 *)
    [("name", Lit (Str "AND A,D"));
     ("ast", Call "AND" [Str "d"])];
    (* 0xA3 *)
    [("name", Lit (Str "AND A,E"));
     ("ast", Call "AND" [Str "e"])];
    (* 0xA4 *)
    [("name", Lit (Str "AND A,H"));
     ("ast", Call "AND" [Str "h"])];
    (* 0xA5 *)
    [("name", Lit (Str "AND A,L"));
     ("ast", Call "AND" [Str "l"])];
    (* 0xA6 *)
    [("name", Lit (Str "AND A,(HL)"))];
    (* 0xA7 *)
    [("name", Lit (Str "AND A,A"));
     ("ast", Call "AND" [Str "a"])];
    (* 0xA8 *)
    [("name", Lit (Str "XOR A,B"));
     ("ast", Call "XOR" [Str "b"])];
    (* 0xA9 *)
    [("name", Lit (Str "XOR A,C"));
     ("ast", Call "XOR" [Str "c"])];
    (* 0xAA *)
    [("name", Lit (Str "XOR A,D"));
     ("ast", Call "XOR" [Str "d"])];
    (* 0xAB *)
    [("name", Lit (Str "XOR A,E"));
     ("ast", Call "XOR" [Str "e"])];
    (* 0xAC *)
    [("name", Lit (Str "XOR A,H"));
     ("ast", Call "XOR" [Str "h"])];
    (* 0xAD *)
    [("name", Lit (Str "XOR A,L"));
     ("ast", Call "XOR" [Str "l"])];
    (* 0xAE *)
    [("name", Lit (Str "XOR A,(HL)"))];
    (* 0xAF *)
    [("name", Lit (Str "XOR A,A"));
     ("ast", Call "XOR" [Str "a"])];
    (* 0xB0 *)
    [("name", Lit (Str "OR A,B"));
     ("ast", Call "OR" [Str "b"])];
    (* 0xB1 *)
    [("name", Lit (Str "OR A,C"));
     ("ast", Call "OR" [Str "c"])];
    (* 0xB2 *)
    [("name", Lit (Str "OR A,D"));
     ("ast", Call "OR" [Str "d"])];
    (* 0xB3 *)
    [("name", Lit (Str "OR A,E"));
     ("ast", Call "OR" [Str "e"])];
    (* 0xB4 *)
    [("name", Lit (Str "OR A,H"));
     ("ast", Call "OR" [Str "h"])];
    (* 0xB5 *)
    [("name", Lit (Str "OR A,L"));
     ("ast", Call "OR" [Str "l"])];
    (* 0xB6 *)
    [("name", Lit (Str "OR A,(HL)"))];
    (* 0xB7 *)
    [("name", Lit (Str "OR A,A"));
     ("ast", Call "OR" [Str "a"])];
    (* 0xB8 *)
    [("name", Lit (Str "CP A,B"))];
    (* 0xB9 *)
    [("name", Lit (Str "CP A,C"))];
    (* 0xBA *)
    [("name", Lit (Str "CP A,D"))];
    (* 0xBB *)
    [("name", Lit (Str "CP A,E"))];
    (* 0xBC *)
    [("name", Lit (Str "CP A,H"))];
    (* 0xBD *)
    [("name", Lit (Str "CP A,L"))];
    (* 0xBE *)
    [("name", Lit (Str "CP A,(HL)"))];
    (* 0xBF *)
    [("name", Lit (Str "CP A,A"))];
    (* 0xC0 *)
    [("name", Lit (Str "RET NZ"));
     ("ast", Call "RET" [Str "=="; F_ZERO])];
    (* 0xC1 *)
    [("name", Lit (Str "POP BC"))];
    (* 0xC2 *)
    [("name", Lit (Str "JP NZ,(nn)"));
     ("ast", Call "JP" [Str "=="; F_ZERO])];
    (* 0xC3 *)
    [("name", Lit (Str "JP (nn)"));
     ("ast", Call "JP" [])];
    (* 0xC4 *)
    [("name", Lit (Str "CALL NZ (nn)"));
     ("ast", Call "CALL" [Str "=="; F_ZERO])];
    (* 0xC5 *)
    [("name", Lit (Str "PUSH BC"))];
    (* 0xC6 *)
    [("name", Lit (Str "ADD A,n"))];
    (* 0xC7 *)
    [("name", Lit (Str "RST 00H"));
     ("ast", Call "RST" [Num 0x00])];
    (* 0xC8 *)
    [("name", Lit (Str "RET Z"));
     ("ast", Call "RET" [Str "!="; F_ZERO])];
    (* 0xC9 *)
    [("name", Lit (Str "RET"));
     ("ast", Call "RET" [])];
    (* 0xCA *)
    [("name", Lit (Str "JP Z,(nn)"));
     ("ast", Call "JP" [Str "!="; F_ZERO])];
    (* 0xCB CB Opcode *)
    [("name", Lit (Str EmptyString))];
    (* 0xCC *)
    [("name", Lit (Str "CALL Z (nn)"));
     ("ast", Call "CALL" [Str "!="; F_ZERO])];
    (* 0xCD *)
    [("name", Lit (Str "CALL (nn)"));
     ("ast", Call "CALL" [])];
    (* 0xCE *)
    [("name", Lit (Str "ADC A,n"))];
    (* 0xCF *)
    [("name", Lit (Str "RST 08H"));
     ("ast", Call "RST" [Num 0x08])];
    (* 0xD0 *)
    [("name", Lit (Str "RET NC"));
     ("ast", Call "RET" [Str "=="; F_CARRY])];
    (* 0xD1 *)
    [("name", Lit (Str "POP DE"))];
    (* 0xD2 *)
    [("name", Lit (Str "JP NC,(nn)"));
     ("ast", Call "JP" [Str "=="; F_CARRY])];
    (* 0xD3 *)
    [("name", Lit (Str "OUT (n),A"))];
    (* 0xD4 *)
    [("name", Lit (Str "CALL NC (nn)"));
     ("ast", Call "CALL" [Str "=="; F_CARRY])];
    (* 0xD5 *)
    [("name", Lit (Str "PUSH DE"))];
    (* 0xD6 *)
    [("name", Lit (Str "SUB n"));
     ("ast", Call "SUB" [])];
    (* 0xD7 *)
    [("name", Lit (Str "RST 10H"));
     ("ast", Call "RST" [Num 0x10])];
    (* 0xD8 *)
    [("name", Lit (Str "RET C"));
     ("ast", Call "RET" [Str "!="; F_CARRY])];
    (* 0xD9 *)
    [("name", Lit (Str "EXX"))];
    (* 0xDA *)
    [("name", Lit (Str "JP C,(nn)"));
     ("ast", Call "JP" [Str "!="; F_CARRY])];
    (* 0xDB *)
    [("name", Lit (Str "IN A,(n)"))];
    (* 0xDC *)
    [("name", Lit (Str "CALL C (nn)"));
     ("ast", Call "CALL" [Str "!="; F_CARRY])];
    (* 0xDD DD Opcode *)
    [("name", Lit (Str EmptyString))];
    (* 0xDE *)
    [("name", Lit (Str "SBC A,n"))];
    (* 0xDF *)
    [("name", Lit (Str "RST 18H"));
     ("ast", Call "RST" [Num 0x18])];
    (* 0xE0 *)
    [("name", Lit (Str "RET PO"));
     ("ast", Call "RET" [Str "=="; F_PARITY])];
    (* 0xE1 *)
    [("name", Lit (Str "POP HL"))];
    (* 0xE2 *)
    [("name", Lit (Str "JP PO,(nn)"));
     ("ast", Call "JP" [Str "=="; F_PARITY])];
    (* 0xE3 *)
    [("name", Lit (Str "EX (SP),HL"))];
    (* 0xE4 *)
    [("name", Lit (Str "CALL PO (nn)"));
     ("ast", Call "CALL" [Str "=="; F_PARITY])];
    (* 0xE5 *)
    [("name", Lit (Str "PUSH HL"))];
    (* 0xE6 *)
    [("name", Lit (Str "AND (n)"));
     ("ast", Call "AND" [])];
    (* 0xE7 *)
    [("name", Lit (Str "RST 20H"));
     ("ast", Call "RST" [Num 0x20])];
    (* 0xE8 *)
    [("name", Lit (Str "RET PE"));
     ("ast", Call "RET" [Str "!="; F_PARITY])];
    (* 0xE9 *)
    [("name", Lit (Str "JP (HL)"))];
    (* 0xEA *)
    [("name", Lit (Str "JP PE,(nn)"));
     ("ast", Call "JP" [Str "!="; F_PARITY])];
    (* 0xEB *)
    [("name", Lit (Str "EX DE,HL"))];
    (* 0xEC *)
    [("name", Lit (Str "CALL PE (nn)"));
     ("ast", Call "CALL" [Str "!="; F_PARITY])];
    (* 0xED ED Opcode *)
    [("name", Lit (Str EmptyString))];
    (* 0xEE *)
    [("name", Lit (Str "XOR n"));
     ("ast", Call "XOR" [])];
    (* 0xEF *)
    [("name", Lit (Str "RST 28H"));
     ("ast", Call "RST" [Num 0x28])];
    (* 0xF0 *)
    [("name", Lit (Str "RET P"));
     ("ast", Call "RET" [Str "=="; F_SIGN])];
    (* 0xF1 *)
    [("name", Lit (Str "POP AF"))];
    (* 0xF2 *)
    [("name", Lit (Str "JP P,(nn)"));
     ("ast", Call "JP" [Str "=="; F_SIGN])];
    (* 0xF3 *)
    [("name", Lit (Str "DI"))];
    (* 0xF4 *)
    [("name", Lit (Str "CALL P (nn)"));
     ("ast", Call "CALL" [Str "=="; F_SIGN])];
    (* 0xF5 *)
    [("name", Lit (Str "PUSH AF"))];
    (* 0xF6 *)
    [("name", Lit (Str "OR n"))];
    (* 0xF7 *)
    [("name", Lit (Str "RST 30H"));
     ("ast", Call "RST" [Num 0x30])];
    (* 0xF8 *)
    [("name", Lit (Str "RET M"));
     ("ast", Call "RET" [Str "!="; F_SIGN])];
    (* 0xF9 *)
    [("name", Lit (Str "LD SP,HL"))];
    (* 0xFA *)
    [("name", Lit (Str "JP M,(nn)"));
     ("ast", Call "JP" [Str "!="; F_SIGN])];
    (* 0xFB *)
    [("name", Lit (Str "EI"))];
    (* 0xFC *)
    [("name", Lit (Str "CALL M (nn)"));
     ("ast", Call "CALL" [Str "!="; F_SIGN])];
    (* 0xFD FD Opcode *)
    [("name", Lit (Str EmptyString))];
    (* 0xFE *)
    [("name", Lit (Str "CP n"))];
    (* 0xFF *)
    [("name", Lit (Str "RST 38H"));
     ("ast", Call "RST" [Num 0x38])]
  ].

(** [var opcodeTable = [...]]: the literals evaluated in order. *)
Definition opcodeTable : result (list descriptor) :=
  sequence (map (eval_literal o_object) opcodeTable_literal).

(** [opcodeTable[i]]; [None] is [undefined]. *)
Definition opcodeTable_at (i : Z) : option descriptor :=
  match opcodeTable with
  | Ok t => if i <? 0 then None else nth_error t (Z.to_nat i)
  | Throw _ => None
  end.

End Tables.

(* ===================================================================== *)
(** ** The index tables (DD and FD prefixes) *)
(* ===================================================================== *)

(** Lookup by opcode in an object keyed by opcode bytes. *)
Fixpoint lookup {A} (key : Z) (l : list (Z * A)) : option A :=
  match l with
  | [] => None
  | (k, v) :: rest => if Z.eqb k key then Some v else lookup key rest
  end.

Section IndexTable.

(** The tables of the DDCB and FDCB prefixes are defined outside this
    file; slot 0xCB of an index table holds one of them as it is. *)
Variable Table : Type.
Variables opcodeTableDDCB opcodeTableFDCB : Table.

(** The initialiser of a slot: a descriptor literal, or a reference to
    a table that exists already. *)
Inductive slot_literal : Type :=
| DescriptorLit (l : object_literal)
| TableRef (t : Table).

Inductive slot : Type :=
| Descriptor (d : descriptor)
| SubTable (t : Table).

Definition eval_slot (o : object) (s : slot_literal) : result slot :=
  match s with
  | DescriptorLit l => d <- eval_literal o l ;; Ok (Descriptor d)
  | TableRef t => Ok (SubTable t)
  end.

Fixpoint eval_slots (o : object) (l : list (Z * slot_literal))
  : result (list (Z * slot)) :=
  match l with
  | [] => Ok []
  | (k, s) :: rest =>
      v <- eval_slot o s ;; t <- eval_slots o rest ;; Ok ((k, v) :: t)
  end.

(** The object literal that [generateIndexTable] returns. *)
Definition generateIndexTable_literal (index : string)
  : list (Z * slot_literal) :=
  let register2 := substring 1 1 index in
  let register2LC := toLowerCase (substring 1 1 index) in
  [
    (0x09, DescriptorLit
       [("name", Lit (Str ("ADD " ++ index ++ ",BC")));
        ("ast", Call "ADD16" [Str "i"; Str register2; Str "b"; Str "c"])]);
    (0x19, DescriptorLit
       [("name", Lit (Str ("ADD " ++ index ++ ",DE")));
        ("ast", Call "ADD16" [Str "i"; Str register2; Str "d"; Str "e"])]);
    (0x21, DescriptorLit
       [("name", Lit (Str ("LD " ++ index ++ ",nn")));
        ("ast", Call "LD16" [Str "i"; Str register2])]);
    (0x22, DescriptorLit
       [("name", Lit (Str ("LD (nn)," ++ index)));
        ("ast", Call "LD_NN" [Str ("i" ++ register2LC ++ "H"); Str ("i" ++ register2LC ++ "L")])]);
    (0x23, DescriptorLit
       [("name", Lit (Str ("INC " ++ index)));
        ("ast", Call "INC16" [Str "i"; Str register2])]);
    (0x2A, DescriptorLit
       [("name", Lit (Str ("LD " ++ index ++ ",(nn)")));
        ("ast", Call "LD16" [Str ("i" ++ register2LC ++ "H"); Str ("i" ++ register2LC ++ "L"); Str "n"; Str "n"]);
        ("operand", Lit UINT16)]);
    (0x2B, DescriptorLit
       [("name", Lit (Str ("DEC " ++ index)));
        ("ast", Call "DEC16" [Str "i"; Str register2])]);
    (0x34, DescriptorLit
       [("name", Lit (Str ("INC (" ++ index ++ "+d)")));
        ("ast", Call "INC_X" [Str "i"; Str register2])]);
    (0x35, DescriptorLit
       [("name", Lit (Str ("DEC (" ++ index ++ "+d)")));
        ("ast", Call "DEC_X" [Str "i"; Str register2])]);
    (0x36, DescriptorLit
       [("name", Lit (Str ("LD (" ++ index ++ "+d),n")));
        ("ast", Call "LD_X" [Str "i"; Str register2])]);
    (0x46, DescriptorLit
       [("name", Lit (Str ("LD B,(" ++ index ++ "+d)")));
        ("ast", Call "LD8_D" [Str "b"; Str "i"; Str register2])]);
    (0x4E, DescriptorLit
       [("name", Lit (Str ("LD C,(" ++ index ++ "+d)")));
        ("ast", Call "LD8_D" [Str "c"; Str "i"; Str register2])]);
    (0x56, DescriptorLit
       [("name", Lit (Str ("LD D,(" ++ index ++ "+d)")));
        ("ast", Call "LD8_D" [Str "d"; Str "i"; Str register2])]);
    (0x5E, DescriptorLit
       [("name", Lit (Str ("LD E,(" ++ index ++ "+d)")));
        ("ast", Call "LD8_D" [Str "e"; Str "i"; Str register2])]);
    (0x66, DescriptorLit
       [("name", Lit (Str ("LD H,(" ++ index ++ "+d)")));
        ("ast", Call "LD8_D" [Str "h"; Str "i"; Str register2])]);
    (0x6E, DescriptorLit
       [("name", Lit (Str ("LD L,(" ++ index ++ "+d)")));
        ("ast", Call "LD8_D" [Str "l"; Str "i"; Str register2])]);
    (0x70, DescriptorLit
       [("name", Lit (Str ("LD (" ++ index ++ "+d),B")));
        ("ast", Call "LD_X" [Str "b"; Str "i"; Str register2])]);
    (0x71, DescriptorLit
       [("name", Lit (Str ("LD (" ++ index ++ "+d),C")));
        ("ast", Call "LD_X" [Str "c"; Str "i"; Str register2])]);
    (0x72, DescriptorLit
       [("name", Lit (Str ("LD (" ++ index ++ "+d),D")));
        ("ast", Call "LD_X" [Str "d"; Str "i"; Str register2])]);
    (0x73, DescriptorLit
       [("name", Lit (Str ("LD (" ++ index ++ "+d),E")));
        ("ast", Call "LD_X" [Str "e"; Str "i"; Str register2])]);
    (0x74, DescriptorLit
       [("name", Lit (Str ("LD (" ++ index ++ "+d),H")));
        ("ast", Call "LD_X" [Str "h"; Str "i"; Str register2])]);
    (0x75, DescriptorLit
       [("name", Lit (Str ("LD (" ++ index ++ "+d),L")));
        ("ast", Call "LD_X" [Str "l"; Str "i"; Str register2])]);
    (0x76, DescriptorLit
       [("name", Lit (Str ("LD (" ++ index ++ "+d),B")));
        ("ast", Call "LD_X" [Str "b"; Str "i"; Str register2])]);
    (0x77, DescriptorLit
       [("name", Lit (Str ("LD (" ++ index ++ "+d),A")));
        ("ast", Call "LD_X" [Str "a"; Str "i"; Str register2])]);
    (0x7E, DescriptorLit
       [("name", Lit (Str ("LD A,(" ++ index ++ "+d)")));
        ("ast", Call "LD8_D" [Str "a"; Str "i"; Str register2])]);
    (0x86, DescriptorLit
       [("name", Lit (Str ("ADD A,(" ++ index ++ "+d)")));
        ("ast", Call "ADD_X" [Str "i"; Str register2])]);
    (0xCB,
       TableRef (if String.eqb index "IX" then opcodeTableDDCB else opcodeTableFDCB));
    (0xB6, DescriptorLit
       [("name", Lit (Str ("OR A,(" ++ index ++ "+d)")));
        ("ast", Call "OR_X" [Str "i"; Str register2])]);
    (0xBE, DescriptorLit
       [("name", Lit (Str ("CP (" ++ index ++ "+d)")));
        ("ast", Call "CP_X" [Str "i"; Str register2])]);
    (0xE1, DescriptorLit
       [("name", Lit (Str ("POP " ++ index)));
        ("ast", Call "POP" [Str "i"; Str register2])]);
    (0xE3, DescriptorLit
       [("name", Lit (Str ("EX SP,(" ++ index ++ ")")));
        ("ast", Call "EX_SP_X" [Str "i"; Str register2])]);
    (0xE5, DescriptorLit
       [("name", Lit (Str ("PUSH " ++ index)));
        ("ast", Call "PUSH" [Str ("i" ++ register2LC ++ "H"); Str ("i" ++ register2LC ++ "L")])]);
    (0xE9, DescriptorLit
       [("name", Lit (Str ("JP (" ++ index ++ ")")));
        ("ast", Call "JP_X" [Str "i"; Str register2])]);
    (0xF9, DescriptorLit
       [("name", Lit (Str ("LD SP," ++ index)));
        ("ast", Call "LD_SP" [Str "i"; Str register2])])
  ].

(** [generateIndexTable(index)], run with the global [o]. *)
Definition generateIndexTable (o : object) (index : string)
  : result (list (Z * slot)) :=
  eval_slots o (generateIndexTable_literal index).

End IndexTable.

Arguments DescriptorLit {Table} l.
Arguments TableRef {Table} t.
Arguments Descriptor {Table} d.
Arguments SubTable {Table} t.
Arguments eval_slot {Table} o s.
Arguments eval_slots {Table} o l.
Arguments generateIndexTable_literal {Table} opcodeTableDDCB opcodeTableFDCB index.
Arguments generateIndexTable {Table} opcodeTableDDCB opcodeTableFDCB o index.

(* ===================================================================== *)
(** ** Concrete runtime values *)
(* ===================================================================== *)

(** The flag masks of the Z80, and a flag table of which only entry 0
    ([F_ZERO | F_PARITY]) is given: values to run the tables on. *)
Definition z80_F_CARRY : jsval := 0x01.
Definition z80_F_PARITY : jsval := 0x04.
Definition z80_F_HALFCARRY : jsval := 0x10.
Definition z80_F_ZERO : jsval := 0x40.
Definition z80_F_SIGN : jsval := 0x80.
Definition sample_SZP_TABLE : list Z := [0x44].

Definition z80_opcodeTable : result (list descriptor) :=
  opcodeTable z80_F_CARRY z80_F_ZERO z80_F_PARITY z80_F_SIGN
    z80_F_HALFCARRY sample_SZP_TABLE.

Definition z80_opcodeTable_at (i : Z) : option descriptor :=
  opcodeTable_at z80_F_CARRY z80_F_ZERO z80_F_PARITY z80_F_SIGN
    z80_F_HALFCARRY sample_SZP_TABLE i.

Definition z80_o : object := o_object z80_F_HALFCARRY sample_SZP_TABLE.

(* ===================================================================== *)
(** ** Vocabulary of the statements *)
(* ===================================================================== *)

(** The opcodes [0 .. 255]. *)
Definition opcodes : list Z := map Z.of_nat (seq 0 256).

(** The prefix bytes, whose slot of the main table is a placeholder. *)
Definition prefix_bytes : list Z := [0xCB; 0xDD; 0xED; 0xFD].

Definition is_prefix_byte (i : Z) : bool :=
  existsb (Z.eqb i) prefix_bytes.

Definition is_empty (s : string) : bool :=
  match s with
  | EmptyString => true
  | String _ _ => false
  end.

(** The [name] of a descriptor, when it is a string. *)
Definition name_of (d : descriptor) : option string :=
  match assoc "name" d with
  | Some (PVal (Str s)) => Some s
  | _ => None
  end.

(** Slot [i] of a table has a string name, empty exactly on the prefix
    bytes (slot 0x1B is not looked at). *)
Definition name_check (table_at : Z -> option descriptor) (i : Z) : bool :=
  if i =? 0x1B then true
  else match table_at i with
       | Some d =>
           match name_of d with
           | Some s => Bool.eqb (is_empty s) (is_prefix_byte i)
           | None => false
           end
       | None => false
       end.

(** The relative jumps [JR e], [JR NZ,e], [JR Z,e], [JR NC,e], [JR C,e]. *)
Definition jr_opcodes : list Z := [0x18; 0x20; 0x28; 0x30; 0x38].

(** [JP (nn)], [CALL (nn)], and the conditional [JP cc,(nn)] and
    [CALL cc (nn)]. *)
Definition jump_opcodes : list Z :=
  [0xC3; 0xCD;
   0xC2; 0xCA; 0xD2; 0xDA; 0xE2; 0xEA; 0xF2; 0xFA;
   0xC4; 0xCC; 0xD4; 0xDC; 0xE4; 0xEC; 0xF4; 0xFC].

(** [SUB n], [AND (n)], [XOR n]. *)
Definition immediate_arithmetic : list Z := [0xD6; 0xE6; 0xEE].

(** An argument of a combinator call: a register name, or nothing. *)
Definition argument (a : option string) : jsval :=
  match a with
  | Some s => Str s
  | None => Undefined
  end.

(** The two shapes of the destination arguments that [LD16] accepts:
    both absent, or both ['n']. *)
Definition tolerated (dst1 dst2 : option string) : Prop :=
  (dst1 = None /\ dst2 = None) \/ (dst1 = Some "n" /\ dst2 = Some "n").

(** The 'IX' of a name becomes 'IY'. *)
Fixpoint IX_to_IY (s : string) : string :=
  match s with
  | EmptyString => EmptyString
  | String c rest =>
      match rest with
      | String c' rest' =>
          if (Ascii.eqb c "I" && Ascii.eqb c' "X")%bool
          then String "I" (String "Y" (IX_to_IY rest'))
          else String c (IX_to_IY rest)
      | EmptyString => String c EmptyString
      end
  end.

(** The register letter of an argument: 'X' becomes 'Y', 'x' becomes
    'y'. *)
Definition X_to_Y (c : ascii) : ascii :=
  if Ascii.eqb c "X" then "Y"%char
  else if Ascii.eqb c "x" then "y"%char
  else c.

Definition rename_argument (v : jsval) : jsval :=
  match v with
  | Str s => Str (map_string X_to_Y s)
  | _ => v
  end.

(** A descriptor literal of the IX table with its register-name literals
    renamed: 'IX' to 'IY' in the string literals, the register letters in
    the arguments of the combinator call; the keys, the combinator and
    the operand stay. *)
Definition rename_initialiser (i : initialiser) : initialiser :=
  match i with
  | Lit (Str s) => Lit (Str (IX_to_IY s))
  | Lit v => Lit v
  | Call name args => Call name (map rename_argument args)
  end.

Definition rename_literal (l : object_literal) : object_literal :=
  map (fun p => (fst p, rename_initialiser (snd p))) l.

(** The indexed combinators the index tables ask of [o]. *)
Definition indexed_combinators : list string :=
  ["LD8_D"; "LD_X"; "INC_X"; "DEC_X"; "ADD_X"; "OR_X"; "CP_X"; "EX_SP_X";
   "JP_X"; "POP"; "PUSH"].

Definition is_ok {A} (r : result A) : bool :=
  match r with
  | Ok _ => true
  | Throw _ => false
  end.

(** The keys of the slots of a table literal that [o] can build. *)
Definition buildable {Table} (o : object) (l : list (Z * slot_literal Table))
  : list Z :=
  map fst (filter (fun p => is_ok (eval_slot o (snd p))) l).

(** An object with, besides the properties of [o], a stand-in (an
    emitter that emits nothing) under each name the index tables call
    and [o] lacks. *)
Definition with_stand_ins (o : object) : object :=
  (o ++ map (fun name => (name, fun _ : list jsval => Ok (PFun o.NOOP)))
          ("LD_NN" :: indexed_combinators))%list.

(* ===================================================================== *)
(** ** The shape of the emitted IR *)
(* ===================================================================== *)

(** The 8-bit registers a [Register] node names in the tables. *)
Definition registers : list string := ["a"; "b"; "c"; "d"; "e"; "h"; "l"; "f"].

Definition binary_operators : list string := ["&"; "|"; "-"; "=="; "!="].

Definition assignment_operators : list string :=
  ["="; "+="; "-="; "&="; "|="; "^="].

(** The expressions the node constructors of [n] build: a literal of any
    value, an identifier, a register, a computed member access, a binary
    or assignment expression, a call of an identifier on an array of
    expressions. *)
Inductive expression : jsval -> Prop :=
| expression_Literal (value : jsval) :
    expression (Obj [("type", Str "Literal"); ("value", value)])
| expression_Identifier (name : string) :
    expression (Obj [("type", Str "Identifier"); ("name", Str name)])
| expression_Register (name : string) :
    In name registers ->
    expression (Obj [("type", Str "Register"); ("name", Str name)])
| expression_Member (object property : jsval) :
    expression object -> expression property ->
    expression (Obj [("type", Str "MemberExpression");
                     ("computed", Bool true);
                     ("object", object);
                     ("property", property)])
| expression_Binary (operator : string) (left right : jsval) :
    In operator binary_operators ->
    expression left -> expression right ->
    expression (Obj [("type", Str "BinaryExpression");
                     ("operator", Str operator);
                     ("left", left);
                     ("right", right)])
| expression_Assignment (operator : string) (left right : jsval) :
    In operator assignment_operators ->
    expression left -> expression right ->
    expression (Obj [("type", Str "AssignmentExpression");
                     ("operator", Str operator);
                     ("left", left);
                     ("right", right)])
| expression_Call (callee : string) (args : list jsval) :
    Forall expression args ->
    expression (Obj [("type", Str "CallExpression");
                     ("callee", Obj [("type", Str "Identifier");
                                     ("name", Str callee)]);
                     ("arguments", Arr args)]).

(** The statements: an expression statement, an [if] without [else]
    over a block, a block, a [return] without argument. *)
Inductive statement : jsval -> Prop :=
| statement_Expression (e : jsval) :
    expression e ->
    statement (Obj [("type", Str "ExpressionStatement"); ("expression", e)])
| statement_If (test consequent : jsval) :
    expression test -> statement consequent ->
    statement (Obj [("type", Str "IfStatement");
                    ("test", test);
                    ("consequent", consequent);
                    ("alternate", Null)])
| statement_Block (body : list jsval) :
    Forall statement body ->
    statement (Obj [("type", Str "BlockStatement"); ("body", Arr body)])
| statement_Return :
    statement (Obj [("type", Str "ReturnStatement"); ("argument", Null)]).

(** What an emitter hands back: nothing, one statement, or an array of
    statements. *)
Definition emitted (r : jsval) : Prop :=
  r = Undefined \/ statement r \/ exists body, r = Arr body /\ Forall statement body.

(** The register operand of an opcode, by its three-bit code; code 6 is
    the memory operand [(HL)]. *)
Definition register_code (k : Z) : string :=
  nth (Z.to_nat k) ["b"; "c"; "d"; "e"; "h"; "l"; "(hl)"; "a"] "a".

Definition register_codes : list Z := [0; 1; 2; 3; 4; 5; 7].

(** The flag mask and the operator of a condition code: NZ, Z, NC, C,
    PO, PE, P, M. *)
Definition condition_names : list string :=
  ["NZ"; "Z"; "NC"; "C"; "PO"; "PE"; "P"; "M"].

Definition condition_operator (cc : Z) : string :=
  if Z.even cc then "==" else "!=".

(** The mnemonics of the arithmetic block 0x80-0xBF, by bits 3-5 of the
    opcode. *)
Definition alu_mnemonic (k : Z) : string :=
  nth (Z.to_nat k) ["ADD"; "ADC"; "SUB"; "SBC"; "AND"; "XOR"; "OR"; "CP"] "CP".

(** The emitter of a slot, if it has one. *)
Definition ast_of (d : descriptor) : option emitter :=
  match assoc "ast" d with
  | Some (PFun e) => Some e
  | _ => None
  end.

(** The operand tag of a slot, if it has one. *)
Definition operand_of (d : descriptor) : option jsval :=
  match assoc "operand" d with
  | Some (PVal v) => Some v
  | _ => None
  end.

Definition has_operand_and_emitter (table_at : Z -> option descriptor) (i : Z)
  : bool :=
  match table_at i with
  | Some d =>
      match ast_of d, operand_of d with
      | Some _, Some _ => true
      | _, _ => false
      end
  | None => false
  end.

(** [(f & mask) operator 0], the test of a conditional return, jump or
    call. *)
Definition flag_test (operator : string) (mask : jsval) : jsval :=
  n.BinaryExpression operator
    (n.BinaryExpression "&" (n.Register "f") (n.Literal mask))
    (n.Literal 0).

(** The combinator call behind an operation of the arithmetic block on a
    register: [o] has none for ADC, SBC and CP. *)
Definition alu_combinator (F_HALFCARRY : jsval) (SZP_TABLE : list Z) (k : Z)
    (register : jsval) : option emitter :=
  match k with
  | 0 => Some (o.ADD register Undefined)
  | 2 => Some (o.SUB register)
  | 4 => Some (o.AND F_HALFCARRY register)
  | 5 => Some (o.XOR SZP_TABLE register)
  | 6 => Some (o.OR register)
  | _ => None
  end.

(** The operand tag the mnemonic asks for: [nn] is a 16-bit immediate,
    [n] an 8-bit one. *)
Definition tag_of_name (name : string) : jsval :=
  match index 0 "nn" name with
  | Some _ => UINT16
  | None => UINT8
  end.

(** The register pairs of the 16-bit block, by bits 4-5 of the opcode;
    code 3 is SP. *)
Definition pair_code (p : Z) : string :=
  nth (Z.to_nat p) ["BC"; "DE"; "HL"; "SP"] "SP".

(** [true] when what an emitter returned is an array of statements that
    ends with a [return]. *)
Definition ends_with_return (r : result jsval) : bool :=
  match r with
  | Ok (Arr body) =>
      match last body Undefined with
      | Obj (("type", Str t) :: _) => String.eqb t "ReturnStatement"
      | _ => false
      end
  | _ => false
  end.

(** The opcodes whose IR ends the block: RET, JP (nn), CALL (nn) and the
    eight restarts. *)
Definition terminators : list Z :=
  [0xC3; 0xC7; 0xC9; 0xCD; 0xCF; 0xD7; 0xDF; 0xE7; 0xEF; 0xF7; 0xFF].

(* ===================================================================== *)
(** ** [JSSMS.Utils] *)
(* ===================================================================== *)

(** The digit of [toString(16)] for a value below 16. *)
Definition hex_digit (d : Z) : ascii :=
  match get (Z.to_nat d) "0123456789abcdef" with
  | Some c => c
  | None => "0"%char
  end.

(** The digits of a non-negative integer in base 16, most significant
    first, in front of [acc]; [fuel] bounds the number of digits. *)
Fixpoint hex_digits (fuel : nat) (m : Z) (acc : string) : string :=
  let acc := String (hex_digit (m mod 16)) acc in
  match fuel with
  | O => acc
  | S fuel' => if m / 16 =? 0 then acc else hex_digits fuel' (m / 16) acc
  end.

(** [dec.toString(16)] on an integer: the digits of the magnitude, after
    a minus sign if it is negative. *)
Definition toString16 (dec : Z) : string :=
  if dec <? 0
  then String "-" (hex_digits (Z.to_nat (Z.log2 (- dec))) (- dec) EmptyString)
  else hex_digits (Z.to_nat (Z.log2 dec)) dec EmptyString.

(** [JSSMS.Utils.toHex]. *)
Definition toHex (dec : Z) : string :=
  let hex := toUpperCase (toString16 dec) in
  let hex := if Nat.odd (String.length hex) then "0" ++ hex else hex in
  "0x" ++ hex.

(** The value of an upper-case hexadecimal digit. *)
Definition digit_value (c : ascii) : option Z :=
  let k := Z.of_nat (nat_of_ascii c) in
  if (48 <=? k) && (k <=? 57) then Some (k - 48)
  else if (65 <=? k) && (k <=? 70) then Some (k - 55)
  else None.

(** The number a string of upper-case hexadecimal digits writes, read
    after the digits that gave [acc]. *)
Fixpoint hex_value (s : string) (acc : Z) : option Z :=
  match s with
  | EmptyString => Some acc
  | String c rest =>
      match digit_value c with
      | Some d => hex_value rest (16 * acc + d)
      | None => None
      end
  end.

(** Reads back what [toHex] writes: the two characters [0x], then
    digits. *)
Definition parseHex (s : string) : option Z :=
  match s with
  | String "0" (String "x" digits) =>
      match digits with
      | EmptyString => None
      | _ => hex_value digits 0
      end
  | _ => None
  end.

(** Arrays are mutable and passed by reference: a heap maps a reference
    to the array it names, and an array maps an index to the element
    stored there, [undefined] where nothing is. *)
Definition jsarray : Type := Z -> jsval.
Definition heap : Type := nat -> jsarray.

(** [a[k] = v]. *)
Definition store (h : heap) (a : nat) (k : Z) (v : jsval) : heap :=
  fun a' =>
    if Nat.eqb a' a then fun k' => if Z.eqb k' k then v else h a k'
    else h a'.

(** [JSSMS.Utils.copyArrayElements] on plain arrays (the branch taken
    without [SUPPORT_DATAVIEW]), for a [length] that is a non-negative
    integer: [while (length--) dest[destPos + length] = src[srcPos + length]]. *)
Fixpoint copyArrayElements_Array (h : heap) (src : nat) (srcPos : Z)
    (dest : nat) (destPos : Z) (length : nat) : heap :=
  match length with
  | O => h
  | S length =>
      copyArrayElements_Array
        (store h dest (destPos + Z.of_nat length)
           (h src (srcPos + Z.of_nat length)))
        src srcPos dest destPos length
  end.

(** A [DataView]: the bytes of its buffer, each in [0 .. 255]. *)
Definition DataView : Type := list Z.
Definition views : Type := nat -> DataView.

Definition in_bounds (v : DataView) (byteOffset : Z) : bool :=
  (0 <=? byteOffset) && (byteOffset <? Z.of_nat (List.length v)).

(** [v.getInt8(byteOffset)]: the byte as a signed number; [None] is the
    [RangeError] of an offset outside the view. *)
Definition getInt8 (v : DataView) (byteOffset : Z) : option Z :=
  if in_bounds v byteOffset then
    let b := nth (Z.to_nat byteOffset) v 0 in
    Some (if b <? 128 then b else b - 256)
  else None.

Fixpoint set_nth (i : nat) (b : Z) (v : list Z) : list Z :=
  match v, i with
  | [], _ => []
  | _ :: rest, O => b :: rest
  | x :: rest, S i => x :: set_nth i b rest
  end.

(** [v.setInt8(byteOffset, value)]: stores the low eight bits of the
    integer [value]; [None] is the [RangeError]. *)
Definition setInt8 (v : DataView) (byteOffset : Z) (value : Z) : option DataView :=
  if in_bounds v byteOffset then Some (set_nth (Z.to_nat byteOffset) (value mod 256) v)
  else None.

Inductive completion : Type :=
| Returned
| RangeError.

(** [JSSMS.Utils.copyArrayElements] on [DataView]s (the branch taken with
    [SUPPORT_DATAVIEW]): the views after the call, and how it ended. *)
Fixpoint copyArrayElements_DataView (h : views) (src : nat) (srcPos : Z)
    (dest : nat) (destPos : Z) (length : nat) : views * completion :=
  match length with
  | O => (h, Returned)
  | S length =>
      match getInt8 (h src) (srcPos + Z.of_nat length) with
      | None => (h, RangeError)
      | Some value =>
          match setInt8 (h dest) (destPos + Z.of_nat length) value with
          | None => (h, RangeError)
          | Some d =>
              copyArrayElements_DataView
                (fun a => if Nat.eqb a dest then d else h a)
                src srcPos dest destPos length
          end
      end
  end.

(** [JSSMS.Utils.getPrefix(arr, obj)]: [obj] is given by the property
    names it has ([prop in obj]), and stands for [document] when it is
    not passed; the result is a name of [arr] or [false]. *)
Fixpoint some_prefix (obj : string -> bool) (arr : list string) (prefix : jsval)
  : jsval :=
  match arr with
  | [] => prefix
  | prop :: rest => if obj prop then Str prop else some_prefix obj rest prefix
  end.

Definition getPrefix (document : string -> bool) (arr : list string)
    (obj : option (string -> bool)) : jsval :=
  let obj := match obj with
             | None => document
             | Some obj => obj
             end in
  some_prefix obj arr (Bool false).

(** What is asked of the emitter of a slot, if the slot has one. *)
Definition emits_statements (table_at : Z -> option descriptor) (i : Z) : Prop :=
  match table_at i with
  | Some d =>
      match assoc "ast" d with
      | Some (PFun e) =>
          forall value target currentAddress,
            exists r, e value target currentAddress = Ok r /\ emitted r
      | _ => True
      end
  | None => True
  end.

(** What is asked of a slot about the end of its IR, if it has an
    emitter. *)
Definition terminator_check (table_at : Z -> option descriptor) (i : Z) : Prop :=
  match table_at i with
  | Some d =>
      match ast_of d with
      | Some e =>
          forall value target currentAddress,
            ends_with_return (e value target currentAddress) =
              existsb (Z.eqb i) terminators
      | None => True
      end
  | None => True
  end.

(** Two arrays to run the copies on: [[10, 20, 30, 40]] at reference 0,
    an empty array at every other reference. *)
Definition sample_heap : heap :=
  fun a =>
    match a with
    | O => fun k => if k <? 0 then Undefined
                    else nth (Z.to_nat k) [Num 10; Num 20; Num 30; Num 40] Undefined
    | S _ => fun _ => Undefined
    end.

(** Two views to run the copies on: four bytes at reference 0, three
    at every other reference. *)
Definition sample_views : views :=
  fun a =>
    match a with
    | O => [0x12; 0x80; 0xFF; 0x00]
    | S _ => [0; 0; 0]
    end.

(* ===================================================================== *)
(** ** Properties of the main opcode table *)
(* ===================================================================== *)

Lemma in_opcodes (i : Z) : 0 <= i <= 255 -> In i opcodes.
Proof.
  intros Hi. unfold opcodes. apply in_map_iff.
  exists (Z.to_nat i). split; [lia | apply in_seq; lia].
Qed.

Lemma is_prefix_byte_In (i : Z) : is_prefix_byte i = true <-> In i prefix_bytes.
Proof.
  unfold is_prefix_byte. rewrite existsb_exists. split.
  - intros [x [Hx Heq]]. apply Z.eqb_eq in Heq. now subst.
  - intros Hin. exists i. split; [assumption | apply Z.eqb_refl].
Qed.

Lemma is_empty_true (s : string) : is_empty s = true <-> s = EmptyString.
Proof. destruct s; simpl; split; congruence. Qed.

Section TableProperties.

Variables F_CARRY F_ZERO F_PARITY F_SIGN F_HALFCARRY : jsval.
Variable SZP_TABLE : list Z.

Local Notation "'table'" :=
  (opcodeTable F_CARRY F_ZERO F_PARITY F_SIGN F_HALFCARRY SZP_TABLE).
Local Notation "'table_at'" :=
  (opcodeTable_at F_CARRY F_ZERO F_PARITY F_SIGN F_HALFCARRY SZP_TABLE).

(** Every combinator call of the table literal returns: the table is
    built, with one descriptor per opcode. *)
Lemma opcodeTable_built :
  exists tbl, table = Ok tbl /\ List.length tbl = 256%nat.
Proof.
  assert (H : match table with
              | Ok t => Nat.eqb (List.length t) 256
              | Throw _ => false
              end = true) by (vm_compute; reflexivity).
  destruct table as [tbl | e]; [| discriminate].
  exists tbl. split; [reflexivity | now apply Nat.eqb_eq].
Qed.

Lemma name_check_all : forallb (name_check table_at) opcodes = true.
Proof. vm_compute. reflexivity. Qed.

(** C1 (amended): [opcodeTable] has exactly 256 entries, and every
    entry other than 0x1B has a string [name], which is the empty string
    on the four prefix bytes 0xCB, 0xDD, 0xED, 0xFD and non-empty
    everywhere else. *)
Theorem opcodeTable_names :
  (exists tbl, table = Ok tbl /\ List.length tbl = 256%nat) /\
  (forall i, 0 <= i <= 255 -> i <> 0x1B ->
     exists d s, table_at i = Some d /\
                 assoc "name" d = Some (PVal (Str s)) /\
                 (s = EmptyString <-> In i prefix_bytes)).
Proof.
  split; [exact opcodeTable_built |].
  intros i Hi Hne.
  pose proof (proj1 (forallb_forall _ _) name_check_all i (in_opcodes i Hi)) as H.
  unfold name_check in H.
  destruct (Z.eqb_spec i 0x1B) as [-> | _]; [congruence |].
  destruct (table_at i) as [d |]; [| discriminate].
  unfold name_of in H.
  destruct (assoc "name" d) as [[v | f] |] eqn:E; try discriminate.
  destruct v as [ | | | | | s | |]; try discriminate.
  exists d, s. split; [reflexivity |]. split; [exact E |]. split.
  - intros Hs. apply is_prefix_byte_In.
    apply is_empty_true in Hs. rewrite Hs in H.
    now apply Bool.eqb_prop in H.
  - intros Hin. apply is_empty_true.
    apply is_prefix_byte_In in Hin. rewrite Hin in H.
    now apply Bool.eqb_prop in H.
Qed.


(** C3: slot 0xAF is built by [XOR('a')], and its emitter returns
    exactly two statements: [a = Literal(0)], then [f = Literal(v)] where
    [v] is the value read from [SZP_TABLE[0]] at emit time, the number
    itself when the table has an entry 0.  The right-hand side is a
    literal node, not a member expression. *)
Theorem XOR_A_emitter :
  table_at 0xAF =
    Some [("name", PVal "XOR A,A"); ("ast", PFun (o.XOR SZP_TABLE "a"))] /\
  (forall value target currentAddress,
     o.XOR SZP_TABLE "a" value target currentAddress =
     Ok (Arr [
       n.ExpressionStatement
         (n.AssignmentExpression "=" (n.Register "a") (n.Literal 0));
       n.ExpressionStatement
         (n.AssignmentExpression "=" (n.Register "f")
            (n.Literal (index_table SZP_TABLE 0)))
     ])) /\
  (forall z rest, SZP_TABLE = z :: rest -> index_table SZP_TABLE 0 = Num z) /\
  (forall object property,
     n.Literal (index_table SZP_TABLE 0) <> n.MemberExpression object property).
Proof.
  split; [vm_compute; reflexivity |].
  split; [intros; reflexivity |].
  split; [intros z rest ->; reflexivity |].
  intros object property. unfold n.Literal, n.MemberExpression. discriminate.
Qed.

(** C5, on the code: slot 0x40 ([LD B,B]) has the emitter that does
    nothing and yet carries the operand tag [UINT8]; the slots of
    [JP (nn)], [CALL (nn)] and of every conditional [JP] and [CALL] have
    an emitter whose output changes with the target, and those of
    [SUB n], [AND (n)], [XOR n] one whose output changes with the value,
    and none of them carries an operand tag. *)
Theorem operand_tag_mismatch :
  (exists e,
     table_at 0x40 =
       Some [("name", PVal "LD B,B"); ("ast", PFun e); ("operand", PVal UINT8)] /\
     forall value target currentAddress,
       e value target currentAddress = Ok Undefined) /\
  Forall (fun i => exists d e,
            table_at i = Some d /\
            assoc "ast" d = Some (PFun e) /\
            assoc "operand" d = None /\
            e Undefined 0 0 <> e Undefined 1 0)
    jump_opcodes /\
  Forall (fun i => exists d e,
            table_at i = Some d /\
            assoc "ast" d = Some (PFun e) /\
            assoc "operand" d = None /\
            e 0 Undefined 0 <> e 1 Undefined 0)
    immediate_arithmetic.
Proof.
  split; [| split].
  - exists o.NOOP. split; [vm_compute; reflexivity | reflexivity].
  - unfold jump_opcodes.
    repeat (apply Forall_cons;
            [eexists; eexists;
             split; [vm_compute; reflexivity |];
             split; [reflexivity |];
             split; [reflexivity | vm_compute; discriminate] |]).
    apply Forall_nil.
  - unfold immediate_arithmetic.
    repeat (apply Forall_cons;
            [eexists; eexists;
             split; [vm_compute; reflexivity |];
             split; [reflexivity |];
             split; [reflexivity | vm_compute; discriminate] |]).
    apply Forall_nil.
Qed.

(** C7: slot 0x10 is built by [DJNZ()], and for every target its emitter
    returns exactly two statements: [b = (b - 1) & 0xFF], then
    [if (b != 0) { pc = target; tstates -= 5 }]; the second is what the
    emitter of [JR(b != 0)] returns for the same target. *)
Theorem DJNZ_emitter :
  table_at 0x10 =
    Some [("name", PVal "DJNZ (PC+e)"); ("ast", PFun o.DJNZ);
          ("operand", PVal INT8)] /\
  (forall value target currentAddress,
     exists jr,
       o.DJNZ value target currentAddress =
         Ok (Arr [
           n.ExpressionStatement
             (n.AssignmentExpression "=" (n.Register "b")
                (n.BinaryExpression "&"
                   (n.BinaryExpression "-" (n.Register "b") (n.Literal 1))
                   (n.Literal 0xFF)));
           jr
         ]) /\
       jr =
         n.IfStatement
           (n.BinaryExpression "!=" (n.Register "b") (n.Literal 0))
           (n.BlockStatement (Arr [
              n.ExpressionStatement
                (n.AssignmentExpression "=" (n.Identifier "pc") (n.Literal target));
              n.ExpressionStatement
                (n.AssignmentExpression "-=" (n.Identifier "tstates") (n.Literal 5))
            ]))
           Null /\
       (forall value' currentAddress',
          o.JR (n.BinaryExpression "!=" (n.Register "b") (n.Literal 0))
            value' target currentAddress' = Ok jr)).
Proof.
  split; [vm_compute; reflexivity |].
  intros value target currentAddress.
  eexists. split; [reflexivity |]. split; reflexivity.
Qed.

(** C10: slot 0x22 ([LD (nn),HL]) is built by
    [LD_WRITE_MEM('n', 'n', 'h', 'l')] with a [UINT16] operand, and for
    every 16-bit operand [v] the emitter of
    [LD_WRITE_MEM('n', 'n', hi, lo)] writes [lo] at the literal [v] and
    [hi] at the literal [v + 1], the plain sum: nothing wraps it to 16
    bits. *)
Theorem LD_nn_HL_no_wraparound (hi lo : string) (v : Z)
    (target currentAddress : jsval) :
  0 <= v <= 0xFFFF ->
  table_at 0x22 =
    Some [("name", PVal "LD (nn),HL");
          ("ast", PFun (o.LD_WRITE_MEM "n" "n" "h" "l"));
          ("operand", PVal UINT16)] /\
  o.LD_WRITE_MEM "n" "n" hi lo (Num v) target currentAddress =
    Ok (Arr [
      n.ExpressionStatement
        (n.CallExpression "writeMem"
           (Arr [n.Literal (Num v); n.Register lo]));
      n.ExpressionStatement
        (n.CallExpression "writeMem"
           (Arr [n.Literal (Num (v + 1)); n.Register hi]))
    ]).
Proof.
  intros _. split; [vm_compute; reflexivity | reflexivity].
Qed.

End TableProperties.

(** C1, as stated, fails: slot 0xCB of the table has the empty name. *)
Lemma opcodeTable_empty_name :
  ~ (forall i, 0 <= i <= 255 ->
       exists d s, z80_opcodeTable_at i = Some d /\
                   assoc "name" d = Some (PVal (Str s)) /\
                   s <> EmptyString).
Proof.
  intros H. destruct (H 0xCB ltac:(lia)) as [d [s [Hd [Hn Hs]]]].
  vm_compute in Hd. injection Hd as <-.
  vm_compute in Hn. injection Hn as <-.
  now apply Hs.
Qed.

(** Slot 0x1B spells its first property [ame]: it has no [name]. *)
Example opcodeTable_1B :
  z80_opcodeTable_at 0x1B =
    Some [("ame", PVal "DEC DE");
          ("ast", PFun (o.DEC16 "d" "e"))].
Proof. vm_compute. reflexivity. Qed.


(** At 0xFFFF the second address is the literal 0x10000, out of the
    16-bit range. *)
Lemma LD_nn_HL_at_FFFF :
  z80_opcodeTable_at 0x22 =
    Some [("name", PVal "LD (nn),HL");
          ("ast", PFun (o.LD_WRITE_MEM "n" "n" "h" "l"));
          ("operand", PVal UINT16)] /\
  o.LD_WRITE_MEM "n" "n" "h" "l" (Num 0xFFFF) Undefined (Num 0) =
    Ok (Arr [
      n.ExpressionStatement
        (n.CallExpression "writeMem"
           (Arr [n.Literal (Num 0xFFFF); n.Register "l"]));
      n.ExpressionStatement
        (n.CallExpression "writeMem"
           (Arr [n.Literal (Num 0x10000); n.Register "h"]))
    ]).
Proof.
  apply (LD_nn_HL_no_wraparound z80_F_CARRY z80_F_ZERO z80_F_PARITY z80_F_SIGN
           z80_F_HALFCARRY sample_SZP_TABLE "h" "l" 0xFFFF Undefined (Num 0)).
  lia.
Defined.

(* ===================================================================== *)
(** ** The arity check of [LD16] *)
(* ===================================================================== *)

(** [LD16] throws exactly when neither test of its two branches holds,
    whatever the values passed. *)
Lemma LD16_cases (srcRegister1 srcRegister2 dstRegister1 dstRegister2 : jsval) :
  if (eq_undefined dstRegister1 && eq_undefined dstRegister2)
     || (eq_string dstRegister1 "n" && eq_string dstRegister2 "n")
  then exists e,
      o.LD16 srcRegister1 srcRegister2 dstRegister1 dstRegister2 = Ok e
  else o.LD16 srcRegister1 srcRegister2 dstRegister1 dstRegister2 =
       Throw (Error "Wrong parameters number").
Proof.
  unfold o.LD16.
  destruct (eq_undefined dstRegister1 && eq_undefined dstRegister2); simpl.
  - eexists. reflexivity.
  - destruct (eq_string dstRegister1 "n" && eq_string dstRegister2 "n").
    + eexists. reflexivity.
    + reflexivity.
Qed.

Lemma tolerated_tests (dst1 dst2 : option string) :
  (eq_undefined (argument dst1) && eq_undefined (argument dst2))
  || (eq_string (argument dst1) "n" && eq_string (argument dst2) "n") = true
  <-> tolerated dst1 dst2.
Proof.
  unfold tolerated. split.
  - intros H. apply orb_true_iff in H.
    destruct H as [H | H]; apply andb_true_iff in H; destruct H as [H1 H2].
    + left. destruct dst1, dst2; simpl in *; try discriminate. now split.
    + right. destruct dst1 as [s1 |], dst2 as [s2 |]; simpl in *;
        try discriminate.
      apply String.eqb_eq in H1, H2. subst. now split.
  - intros [[-> ->] | [-> ->]]; reflexivity.
Qed.

(** C6: called with register names or nothing as destination arguments,
    [LD16] returns an emitter on the two tolerated shapes and throws
    [Error('Wrong parameters number')] on every other one; the throw
    comes from the combinator call itself, so it aborts the evaluation of
    a table literal that holds the call. *)
Theorem LD16_arity (hi lo : jsval) (dst1 dst2 : option string) :
  (tolerated dst1 dst2 ->
     exists e, o.LD16 hi lo (argument dst1) (argument dst2) = Ok e) /\
  (~ tolerated dst1 dst2 ->
     o.LD16 hi lo (argument dst1) (argument dst2) =
       Throw (Error "Wrong parameters number") /\
     forall F_HALFCARRY SZP_TABLE name rest,
       eval_literal (o_object F_HALFCARRY SZP_TABLE)
         (("name", Lit name)
          :: ("ast", Call "LD16" [hi; lo; argument dst1; argument dst2])
          :: rest) =
       Throw (Error "Wrong parameters number")).
Proof.
  pose proof (LD16_cases hi lo (argument dst1) (argument dst2)) as H.
  pose proof (tolerated_tests dst1 dst2) as T.
  destruct ((eq_undefined (argument dst1) && eq_undefined (argument dst2))
            || (eq_string (argument dst1) "n" && eq_string (argument dst2) "n")).
  - split; [intros _; exact H |].
    intros Hn. exfalso. apply Hn, T. reflexivity.
  - split.
    + intros Ht. apply T in Ht. discriminate.
    + intros _. split; [exact H |].
      intros F_HALFCARRY SZP_TABLE name rest.
      cbn [eval_literal eval_initialiser bind].
      unfold call, o_object. cbn [o.properties assoc String.eqb Ascii.eqb Bool.eqb].
      cbn [o.arg nth]. rewrite H. reflexivity.
Qed.

(** [LD16('h', 'l', 'n', 'n')] returns an emitter, [LD16('h', 'l', 'n')]
    throws. *)
Lemma LD16_arity_HL_nn :
  (exists e, o.LD16 "h" "l" (argument (Some "n")) (argument (Some "n")) = Ok e) /\
  o.LD16 "h" "l" (argument (Some "n")) (argument None) =
    Throw (Error "Wrong parameters number").
Proof.
  split.
  - apply LD16_arity. right. now split.
  - apply LD16_arity. intros [[H _] | [_ H]]; discriminate.
Defined.

(* ===================================================================== *)
(** ** Properties of the index tables *)
(* ===================================================================== *)

Section EvalLemmas.

Context {Table : Type}.
Variable o : object.

Lemma eval_literal_assoc (l : object_literal) (d : descriptor) (key : string) :
  eval_literal o l = Ok d ->
  match assoc key l with
  | Some i => exists v, eval_initialiser o i = Ok v /\ assoc key d = Some v
  | None => assoc key d = None
  end.
Proof.
  revert d. induction l as [| [k i] rest IH]; intros d H.
  - injection H as <-. reflexivity.
  - cbn [eval_literal] in H.
    destruct (eval_initialiser o i) as [v |] eqn:Ei; [| discriminate].
    cbn [bind] in H.
    destruct (eval_literal o rest) as [t |] eqn:Er; [| discriminate].
    injection H as <-. cbn [assoc].
    destruct (String.eqb k key).
    + exists v. now split.
    + now apply IH.
Qed.

Lemma eval_slots_keys (l : list (Z * slot_literal Table)) (t : list (Z * slot Table)) :
  eval_slots o l = Ok t -> map fst t = map fst l.
Proof.
  revert t. induction l as [| [k s] rest IH]; intros t H.
  - injection H as <-. reflexivity.
  - cbn [eval_slots] in H.
    destruct (eval_slot o s) as [v |]; [| discriminate].
    cbn [bind] in H.
    destruct (eval_slots o rest) as [t' |]; [| discriminate].
    injection H as <-. cbn [map fst]. f_equal. now apply IH.
Qed.

Lemma eval_slots_lookup (l : list (Z * slot_literal Table)) (t : list (Z * slot Table))
    (key : Z) :
  eval_slots o l = Ok t ->
  match lookup key l with
  | Some s => exists v, eval_slot o s = Ok v /\ lookup key t = Some v
  | None => lookup key t = None
  end.
Proof.
  revert t. induction l as [| [k s] rest IH]; intros t H.
  - injection H as <-. reflexivity.
  - cbn [eval_slots] in H.
    destruct (eval_slot o s) as [v |] eqn:Es; [| discriminate].
    cbn [bind] in H.
    destruct (eval_slots o rest) as [t' |]; [| discriminate].
    injection H as <-. cbn [lookup].
    destruct (Z.eqb k key).
    + exists v. now split.
    + now apply IH.
Qed.

Lemma eval_slot_descriptor (l : object_literal) (v : slot Table) :
  eval_slot o (DescriptorLit l) = Ok v ->
  exists d, eval_literal o l = Ok d /\ v = Descriptor d.
Proof.
  cbn [eval_slot]. destruct (eval_literal o l) as [d |]; [| discriminate].
  intros H. injection H as <-. exists d. now split.
Qed.

End EvalLemmas.

Section IndexTableProperties.

Context {Table : Type}.
Variables opcodeTableDDCB opcodeTableFDCB : Table.

Local Notation "'literal'" :=
  (generateIndexTable_literal opcodeTableDDCB opcodeTableFDCB).
Local Notation "'generate'" :=
  (generateIndexTable opcodeTableDDCB opcodeTableFDCB).

(** The keys of the literal are distinct, so [lookup] reads the slot
    the object has at a key. *)
Lemma index_keys_distinct (index : string) : NoDup (map fst (literal index)).
Proof.
  cbn. repeat constructor; cbn; intuition congruence.
Qed.

(** C4, on the code: [o] has none of the eleven indexed combinators, so
    [generateIndexTable] throws for both index registers, at the first
    missing combinator it calls ([LD_NN], slot 0x22); of the 34 slots of
    the literal, [o] can build eight. *)
Theorem index_combinators_missing (F_HALFCARRY : jsval) (SZP_TABLE : list Z) :
  Forall (fun name => assoc name (o_object F_HALFCARRY SZP_TABLE) = None)
    indexed_combinators /\
  generate (o_object F_HALFCARRY SZP_TABLE) "IX" =
    Throw (TypeError "o.LD_NN is not a function") /\
  generate (o_object F_HALFCARRY SZP_TABLE) "IY" =
    Throw (TypeError "o.LD_NN is not a function") /\
  buildable (o_object F_HALFCARRY SZP_TABLE) (literal "IX") =
    [0x09; 0x19; 0x21; 0x23; 0x2A; 0x2B; 0xCB; 0xF9] /\
  buildable (o_object F_HALFCARRY SZP_TABLE) (literal "IY") =
    [0x09; 0x19; 0x21; 0x23; 0x2A; 0x2B; 0xCB; 0xF9].
Proof.
  split; [| split; [| split; [| split]]].
  - unfold indexed_combinators. repeat constructor.
  - vm_compute. reflexivity.
  - vm_compute. reflexivity.
  - vm_compute. reflexivity.
  - vm_compute. reflexivity.
Qed.

(** With an object that has a combinator under every name the literal
    calls, the factory returns a table, with the keys of the literal. *)
Example generateIndexTable_returns :
  exists t,
    generate (with_stand_ins z80_o) "IX" = Ok t /\
    map fst t = map fst (literal "IX").
Proof.
  destruct (generate (with_stand_ins z80_o) "IX") as [t |] eqn:E.
  - exists t. split; [reflexivity |].
    exact (eval_slots_keys _ _ _ E).
  - vm_compute in E. discriminate.
Qed.

(** Slot by slot, the IY literal is the IX literal renamed. *)
Lemma index_literal_renamed (k : Z) :
  k <> 0xCB -> In k (map fst (literal "IX")) ->
  exists l,
    lookup k (literal "IX") = Some (DescriptorLit l) /\
    lookup k (literal "IY") = Some (DescriptorLit (rename_literal l)).
Proof.
  intros Hk Hin. cbn in Hin.
  repeat (destruct Hin as [<- | Hin];
          [try (exfalso; apply Hk; reflexivity);
           eexists; split; vm_compute; reflexivity |]).
  contradiction.
Qed.


(** Every descriptor literal of an index table has a string literal
    as name, and none is named HALT. *)
Lemma index_literal_names (index : string) (k : Z) (l : object_literal) :
  lookup k (literal index) = Some (DescriptorLit l) ->
  exists s, assoc "name" l = Some (Lit (Str s)) /\ s <> "HALT".
Proof.
  unfold generateIndexTable_literal. cbn [lookup].
  repeat (match goal with
          | |- context [Z.eqb ?a k] => destruct (Z.eqb a k)
          end;
          [intros H;
           first [discriminate H
                 | injection H as <-; eexists; split;
                   [reflexivity | cbn; discriminate]] |]).
  intros H; discriminate H.
Qed.

Lemma index_literal_no_HALT (index : string) (k : Z) (l : object_literal) :
  lookup k (literal index) = Some (DescriptorLit l) ->
  assoc "name" l <> Some (Lit "HALT").
Proof.
  intros H. destruct (index_literal_names index k l H) as [s [-> Hs]].
  intros Heq. injection Heq as ->. now apply Hs.
Qed.


End IndexTableProperties.

(* ===================================================================== *)
(** ** The IR of the main table *)
(* ===================================================================== *)

Ltac ir_step :=
  first
    [ apply Forall_nil
    | apply Forall_cons
    | apply statement_Return
    | apply statement_Expression
    | apply statement_If
    | apply statement_Block
    | apply expression_Literal
    | apply expression_Identifier
    | apply expression_Register; simpl; tauto
    | apply expression_Member
    | apply expression_Binary; [simpl; tauto | |]
    | apply expression_Assignment; [simpl; tauto | |]
    | apply expression_Call ].

Ltac ir_emitted :=
  first
    [ left; reflexivity
    | right; left; repeat ir_step; fail
    | right; right; eexists; split; [reflexivity | repeat ir_step] ].

Section TableIR.

Variables F_CARRY F_ZERO F_PARITY F_SIGN F_HALFCARRY : jsval.
Variable SZP_TABLE : list Z.

Local Notation "'table'" :=
  (opcodeTable F_CARRY F_ZERO F_PARITY F_SIGN F_HALFCARRY SZP_TABLE).
Local Notation "'table_at'" :=
  (opcodeTable_at F_CARRY F_ZERO F_PARITY F_SIGN F_HALFCARRY SZP_TABLE).

(** A slot that exists has an opcode byte as index. *)
Lemma table_at_range (i : Z) (d : descriptor) :
  table_at i = Some d -> 0 <= i <= 255.
Proof.
  unfold opcodeTable_at.
  destruct (opcodeTable_built F_CARRY F_ZERO F_PARITY F_SIGN F_HALFCARRY SZP_TABLE)
    as [tbl [-> Hlen]].
  destruct (Z.ltb_spec i 0) as [Hneg | Hpos]; [discriminate |].
  intros H.
  assert (Hlt : (Z.to_nat i < List.length tbl)%nat)
    by (apply nth_error_Some; congruence).
  lia.
Qed.

Lemma emits_statements_all : Forall (emits_statements table_at) opcodes.
Proof.
  assert (E : opcodes = ltac:(let l := eval vm_compute in opcodes in exact l))
    by (vm_compute; reflexivity).
  rewrite E.
  repeat (apply Forall_cons;
          [unfold emits_statements; vm_compute;
           first [exact I
                 | intros value target currentAddress;
                   eexists; split; [reflexivity | ir_emitted]] |]).
  apply Forall_nil.
Qed.


End TableIR.

Section TableEncoding.

Variables F_CARRY F_ZERO F_PARITY F_SIGN F_HALFCARRY : jsval.
Variable SZP_TABLE : list Z.

Local Notation "'table_at'" :=
  (opcodeTable_at F_CARRY F_ZERO F_PARITY F_SIGN F_HALFCARRY SZP_TABLE).

Ltac each_code k H :=
  let C := fresh "C" in
  assert (C : k = 0 \/ k = 1 \/ k = 2 \/ k = 3 \/ k = 4 \/ k = 5 \/ k = 6 \/ k = 7)
    by lia;
  clear H;
  repeat (destruct C as [-> | C]); [ .. | subst k].

(** X3: the load block follows the Z80 encoding.  For register codes
    [dst] and [src] other than the pair (6, 6) of HALT, slot
    [0x40 + 8 dst + src] is named [LD DST,SRC]; between two registers its
    emitter assigns the register [src] to the register [dst] (so the
    first parameter of [LD8] is the destination), and does nothing when
    they are the same; of the forms on [(HL)] only [LD A,(HL)] has an
    emitter. *)
Theorem load_block_encoding (dst src : Z) :
  0 <= dst <= 7 -> 0 <= src <= 7 -> (dst, src) <> (6, 6) ->
  exists d,
    table_at (0x40 + 8 * dst + src) = Some d /\
    name_of d =
      Some ("LD " ++ toUpperCase (register_code dst) ++ ","
                  ++ toUpperCase (register_code src)) /\
    match ast_of d with
    | Some e =>
        (dst <> 6 /\ src <> 6 /\
         forall value target currentAddress,
           e value target currentAddress =
             if dst =? src then Ok Undefined
             else Ok (n.ExpressionStatement
                        (n.AssignmentExpression "="
                           (n.Register (register_code dst))
                           (n.Register (register_code src))))) \/
        (dst = 7 /\ src = 6 /\
         forall value target currentAddress,
           e value target currentAddress =
             Ok (n.ExpressionStatement
                   (n.AssignmentExpression "=" (n.Register "a")
                      (o.READ_MEM8 (n.CallExpression "getHL" Undefined)))))
    | None => dst = 6 \/ (src = 6 /\ dst <> 7)
    end.
Proof.
  intros Hd Hs Hne.
  each_code dst Hd; each_code src Hs;
    try (exfalso; apply Hne; reflexivity);
    (eexists; split; [vm_compute; reflexivity |]; split; [reflexivity |];
     cbn;
     first [ left; split; [lia |]; split; [lia |]; intros; reflexivity
           | right; split; [reflexivity |]; split; [reflexivity |];
             intros; reflexivity
           | left; reflexivity
           | right; split; [reflexivity | lia] ]).
Qed.


(** X4: the arithmetic block follows the Z80 encoding.  For an operation
    code [k] and a register code [src], slot [0x80 + 8 k + src] is named
    [OP A,SRC]; it has an emitter exactly when the operation is ADD, SUB,
    AND, XOR or OR and the operand is a register, and the emitter is then
    the one the combinator of that operation builds for that register. *)
Theorem alu_block_encoding (k src : Z) :
  0 <= k <= 7 -> 0 <= src <= 7 ->
  exists d,
    table_at (0x80 + 8 * k + src) = Some d /\
    name_of d = Some (alu_mnemonic k ++ " A," ++ toUpperCase (register_code src)) /\
    match ast_of d with
    | Some e =>
        src <> 6 /\
        exists f,
          alu_combinator F_HALFCARRY SZP_TABLE k (register_code src) = Some f /\
          forall value target currentAddress,
            e value target currentAddress = f value target currentAddress
    | None => src = 6 \/ In k [1; 3; 7]
    end.
Proof.
  intros Hk Hs.
  each_code k Hk; each_code src Hs;
    (eexists; split; [vm_compute; reflexivity |]; split; [reflexivity |];
     cbn;
     first [ split; [lia |]; eexists; split; [reflexivity |]; intros; reflexivity
           | left; reflexivity
           | right; tauto ]).
Qed.


(** X8: the restarts.  For [k] from 0 to 7, slot [0xC7 + 8 k] is named
    [RST] followed by the two hexadecimal digits of the address [8 k]
    and [H], carries no operand, and its emitter pushes
    [currentAddress] as it is, sets [pc] to the literal [8 k] and
    returns. *)
Theorem restart_encoding (k : Z) :
  0 <= k <= 7 ->
  exists d e,
    table_at (0xC7 + 8 * k) = Some d /\
    name_of d = Some ("RST " ++ substring 2 2 (toHex (8 * k)) ++ "H") /\
    ast_of d = Some e /\
    operand_of d = None /\
    forall value target currentAddress,
      e value target currentAddress =
        Ok (Arr [
          n.ExpressionStatement
            (n.CallExpression "push1" (n.Literal currentAddress));
          n.ExpressionStatement
            (n.AssignmentExpression "=" (n.Identifier "pc")
               (n.Literal (Num (8 * k))));
          n.ReturnStatement Undefined
        ]).
Proof.
  intros Hk.
  each_code k Hk;
    (eexists; eexists; split; [vm_compute; reflexivity |];
     split; [reflexivity |]; split; [reflexivity |]; split; [reflexivity |];
     intros; reflexivity).
Qed.

(** X9: the slots that carry both an operand tag and an emitter are the
    sixteen loads below 0x40 with an immediate, DJNZ, and 0x40.  But for
    0x40 the tag fits the emitter: on the loads it is [UINT16] when the
    mnemonic has [nn] and [UINT8] when it has [n], and the emitted IR
    changes with the value and with nothing else; on DJNZ it is [INT8],
    and the emitted IR changes with the target and with nothing else. *)
Theorem operand_tags_on_emitters :
  filter (has_operand_and_emitter table_at) opcodes =
    [0x01; 0x06; 0x0E; 0x10; 0x11; 0x16; 0x1E; 0x21; 0x22; 0x26; 0x2A; 0x2E;
     0x31; 0x32; 0x36; 0x3A; 0x3E; 0x40] /\
  Forall (fun i =>
            exists d e tag name,
              table_at i = Some d /\ ast_of d = Some e /\
              operand_of d = Some tag /\ name_of d = Some name /\
              tag = tag_of_name name /\
              (forall value target target' currentAddress currentAddress',
                 e value target currentAddress = e value target' currentAddress') /\
              (forall target currentAddress,
                 e 0 target currentAddress <> e 1 target currentAddress))
    [0x01; 0x06; 0x0E; 0x11; 0x16; 0x1E; 0x21; 0x22; 0x26; 0x2A; 0x2E;
     0x31; 0x32; 0x36; 0x3A; 0x3E] /\
  (exists d e,
     table_at 0x10 = Some d /\ ast_of d = Some e /\ operand_of d = Some INT8 /\
     (forall value value' target currentAddress currentAddress',
        e value target currentAddress = e value' target currentAddress') /\
     (forall value currentAddress,
        e value 0 currentAddress <> e value 1 currentAddress)).
Proof.
  split; [vm_compute; reflexivity |]. split.
  - repeat (apply Forall_cons;
            [eexists; eexists; eexists; eexists;
             split; [vm_compute; reflexivity |];
             split; [reflexivity |]; split; [reflexivity |];
             split; [reflexivity |]; split; [reflexivity |];
             split; [intros; reflexivity | intros; vm_compute; discriminate] |]).
    apply Forall_nil.
  - eexists; eexists.
    split; [vm_compute; reflexivity |].
    split; [reflexivity |]. split; [reflexivity |].
    split; [intros; reflexivity | intros; vm_compute; discriminate].
Qed.

(** X11: [LD_SP] takes no parameter, so the arguments
    [('i', register2)] of slot 0xF9 of the index tables ([LD SP,IX],
    [LD SP,IY]) are dropped: with the [o] of the source the slot is
    built, and its emitter is the one of slot 0x31 ([LD SP,nn]) of the
    main table, which sets [sp] to the literal value and never reads the
    index register. *)
Theorem LD_SP_ignores_index (index : string) :
  (forall (Table : Type) (opcodeTableDDCB opcodeTableFDCB : Table),
     exists l,
       lookup 0xF9 (generateIndexTable_literal opcodeTableDDCB opcodeTableFDCB index) =
         Some (DescriptorLit l) /\
       assoc "ast" l =
         Some (Call "LD_SP" [Str "i"; Str (substring 1 1 index)]) /\
       eval_literal (o_object F_HALFCARRY SZP_TABLE) l =
         Ok [("name", PVal (Str ("LD SP," ++ index))); ("ast", PFun o.LD_SP)]) /\
  (exists d,
     table_at 0x31 = Some d /\ ast_of d = Some o.LD_SP /\
     name_of d = Some "LD SP,nn") /\
  (forall value target currentAddress,
     o.LD_SP value target currentAddress =
       Ok (n.ExpressionStatement
             (n.AssignmentExpression "=" (n.Identifier "sp") (n.Literal value)))).
Proof.
  split; [| split].
  - intros Table ddcb fdcb. eexists.
    split; [reflexivity |]. split; reflexivity.
  - eexists. split; [vm_compute; reflexivity |]. split; reflexivity.
  - intros. reflexivity.
Qed.

End TableEncoding.

(** X10: the arity check of [LD16] looks at the destination arguments
    only.  Called without them it returns an emitter whatever the source
    registers are; with two register names the emitter calls the setter
    of the pair, and with source registers that are neither strings nor
    objects (not passed, or numbers) every call of the emitter throws a
    [TypeError]: the error comes when the IR is emitted, not when the
    table is built. *)
Theorem LD16_unchecked_sources (hi lo : jsval) :
  exists e,
    o.LD16 hi lo Undefined Undefined = Ok e /\
    (forall r1 r2 value target currentAddress,
       hi = Str r1 -> lo = Str r2 ->
       e value target currentAddress =
         Ok (n.ExpressionStatement
               (n.CallExpression (Str ("set" ++ toUpperCase (r1 ++ r2)))
                  (n.Literal value)))) /\
    (is_primitive_number hi = true -> is_primitive_number lo = true ->
     forall value target currentAddress,
       exists msg, e value target currentAddress = Throw (TypeError msg)).
Proof.
  eexists. split; [reflexivity |]. split.
  - intros r1 r2 value target currentAddress -> ->. reflexivity.
  - intros Hhi Hlo value target currentAddress.
    cbn beta. unfold accessor, js_add. rewrite Hhi, Hlo. cbn [andb].
    destruct (to_number hi), (to_number lo); cbn; eexists; reflexivity.
Qed.

Section TableEncoding2.

Variables F_CARRY F_ZERO F_PARITY F_SIGN F_HALFCARRY : jsval.
Variable SZP_TABLE : list Z.

Local Notation "'table_at'" :=
  (opcodeTable_at F_CARRY F_ZERO F_PARITY F_SIGN F_HALFCARRY SZP_TABLE).

Ltac each_code8 k H :=
  let C := fresh "C" in
  assert (C : k = 0 \/ k = 1 \/ k = 2 \/ k = 3 \/ k = 4 \/ k = 5 \/ k = 6 \/ k = 7)
    by lia;
  clear H;
  repeat (destruct C as [-> | C]); [ .. | subst k].

(** X5: the 8-bit block below 0x40.  For a register code [r], slot
    [0x06 + 8 r] is named [LD R,n], carries [UINT8], and its emitter
    assigns the literal value to the register, or writes it at [(HL)]
    for code 6; slots [0x04 + 8 r] and [0x05 + 8 r] are named [INC R] and
    [DEC R], and have an emitter, [r = inc8(r)] and [r = dec8(r)], for
    B, C, D, E and A only: H, L and [(HL)] have none. *)
Theorem immediate_block_encoding (r : Z) :
  0 <= r <= 7 ->
  let R := toUpperCase (register_code r) in
  (exists d e,
     table_at (0x06 + 8 * r) = Some d /\
     name_of d = Some ("LD " ++ R ++ ",n") /\
     operand_of d = Some UINT8 /\
     ast_of d = Some e /\
     forall value target currentAddress,
       e value target currentAddress =
         if r =? 6
         then Ok (n.ExpressionStatement
                    (n.CallExpression "writeMem"
                       (Arr [n.CallExpression "getHL" Undefined; n.Literal value])))
         else Ok (n.ExpressionStatement
                    (n.AssignmentExpression "=" (n.Register (register_code r))
                       (n.Literal value)))) /\
  (exists d,
     table_at (0x04 + 8 * r) = Some d /\
     name_of d = Some ("INC " ++ R) /\
     operand_of d = None /\
     match ast_of d with
     | Some e =>
         In r [0; 1; 2; 3; 7] /\
         forall value target currentAddress,
           e value target currentAddress =
             Ok (n.ExpressionStatement
                   (n.AssignmentExpression "=" (n.Register (register_code r))
                      (n.CallExpression "inc8" (n.Register (register_code r)))))
     | None => In r [4; 5; 6]
     end) /\
  (exists d,
     table_at (0x05 + 8 * r) = Some d /\
     name_of d = Some ("DEC " ++ R) /\
     operand_of d = None /\
     match ast_of d with
     | Some e =>
         In r [0; 1; 2; 3; 7] /\
         forall value target currentAddress,
           e value target currentAddress =
             Ok (n.ExpressionStatement
                   (n.AssignmentExpression "=" (n.Register (register_code r))
                      (n.CallExpression "dec8" (n.Register (register_code r)))))
     | None => In r [4; 5; 6]
     end).
Proof.
  intros Hr.
  each_code8 r Hr;
    (cbv zeta; split; [| split];
     [ eexists; eexists; split; [vm_compute; reflexivity |];
       split; [reflexivity |]; split; [reflexivity |]; split; [reflexivity |];
       intros; reflexivity
     | eexists; split; [vm_compute; reflexivity |];
       split; [reflexivity |]; split; [reflexivity |]; cbn;
       first [ split; [tauto | intros; reflexivity] | tauto ]
     | eexists; split; [vm_compute; reflexivity |];
       split; [reflexivity |]; split; [reflexivity |]; cbn;
       first [ split; [tauto | intros; reflexivity] | tauto ] ]).
Qed.

(** X6: the 16-bit block below 0x40, for the pairs BC, DE and HL (codes
    0, 1, 2).  Slot [0x01 + 16 p] ([LD PP,nn], [UINT16]) emits
    [setPP(value)], slot [0x03 + 16 p] ([INC PP]) emits [incPP()], and
    slot [0x09 + 16 p] ([ADD HL,PP]) emits
    [setHL(add16(getHL(), getPP()))]: the accessor names are the pair
    name in upper case.  For SP (code 3) only [LD SP,nn] has an
    emitter. *)
Theorem pair_block_encoding (p : Z) :
  0 <= p <= 2 ->
  let PP := pair_code p in
  (exists d e,
     table_at (0x01 + 16 * p) = Some d /\
     name_of d = Some ("LD " ++ PP ++ ",nn") /\
     operand_of d = Some UINT16 /\
     ast_of d = Some e /\
     forall value target currentAddress,
       e value target currentAddress =
         Ok (n.ExpressionStatement
               (n.CallExpression (Str ("set" ++ PP)) (n.Literal value)))) /\
  (exists d e,
     table_at (0x03 + 16 * p) = Some d /\
     name_of d = Some ("INC " ++ PP) /\
     ast_of d = Some e /\
     forall value target currentAddress,
       e value target currentAddress =
         Ok (n.ExpressionStatement (n.CallExpression (Str ("inc" ++ PP)) Undefined))) /\
  (exists d e,
     table_at (0x09 + 16 * p) = Some d /\
     name_of d = Some ("ADD HL," ++ PP) /\
     ast_of d = Some e /\
     forall value target currentAddress,
       e value target currentAddress =
         Ok (n.ExpressionStatement
               (n.CallExpression "setHL"
                  (n.CallExpression "add16"
                     (Arr [n.CallExpression "getHL" Undefined;
                           n.CallExpression (Str ("get" ++ PP)) Undefined]))))) /\
  (exists d3 d9 dB,
     table_at 0x33 = Some d3 /\ name_of d3 = Some "INC SP" /\ ast_of d3 = None /\
     table_at 0x39 = Some d9 /\ name_of d9 = Some "ADD HL,SP" /\ ast_of d9 = None /\
     table_at 0x3B = Some dB /\ name_of dB = Some "DEC SP" /\ ast_of dB = None).
Proof.
  intros Hp.
  assert (C : p = 0 \/ p = 1 \/ p = 2) by lia. clear Hp.
  destruct C as [-> | [-> | ->]];
    (cbv zeta; split; [| split; [| split]];
     [ eexists; eexists; split; [vm_compute; reflexivity |];
       split; [reflexivity |]; split; [reflexivity |]; split; [reflexivity |];
       intros; reflexivity
     | eexists; eexists; split; [vm_compute; reflexivity |];
       split; [reflexivity |]; split; [reflexivity |]; intros; reflexivity
     | eexists; eexists; split; [vm_compute; reflexivity |];
       split; [reflexivity |]; split; [reflexivity |]; intros; reflexivity
     | eexists; eexists; eexists;
       split; [vm_compute; reflexivity |]; split; [reflexivity |];
       split; [reflexivity |];
       split; [vm_compute; reflexivity |]; split; [reflexivity |];
       split; [reflexivity |];
       split; [vm_compute; reflexivity |]; split; reflexivity ]).
Qed.

Lemma terminator_check_all : Forall (terminator_check table_at) opcodes.
Proof.
  assert (E : opcodes = ltac:(let l := eval vm_compute in opcodes in exact l))
    by (vm_compute; reflexivity).
  rewrite E.
  repeat (apply Forall_cons;
          [unfold terminator_check; vm_compute;
           first [exact I | intros; reflexivity] |]).
  apply Forall_nil.
Qed.


End TableEncoding2.

(** X12: the slots of the index tables that the [o] of the source can
    build name the index register in two ways.  [ADD IX,BC], [ADD IX,DE],
    [LD IX,nn], [INC IX] and [DEC IX] call the accessors [getIX],
    [setIX], [incIX], [decIX] (and those of IY for IY), while
    [LD IX,(nn)] calls the setter [setIXHIXL] (resp. [setIYHIYL]). *)
Theorem index_accessors (F_HALFCARRY : jsval) (SZP_TABLE : list Z)
    (Table : Type) (opcodeTableDDCB opcodeTableFDCB : Table) :
  Forall (fun index =>
    let built k :=
      match lookup k (generateIndexTable_literal opcodeTableDDCB opcodeTableFDCB index) with
      | Some s =>
          match eval_slot (o_object F_HALFCARRY SZP_TABLE) s with
          | Ok (Descriptor d) => ast_of d
          | _ => None
          end
      | None => None
      end in
    let call name args := n.ExpressionStatement (n.CallExpression (Str name) args) in
    (exists e, built 0x21 = Some e /\
       forall value target currentAddress,
         e value target currentAddress =
           Ok (call ("set" ++ index) (n.Literal value))) /\
    (exists e, built 0x2A = Some e /\
       forall value target currentAddress,
         e value target currentAddress =
           Ok (call ("set" ++ index ++ "H" ++ index ++ "L")
                 (o.READ_MEM16 (n.Literal value)))) /\
    (exists e, built 0x23 = Some e /\
       forall value target currentAddress,
         e value target currentAddress = Ok (call ("inc" ++ index) Undefined)) /\
    (exists e, built 0x2B = Some e /\
       forall value target currentAddress,
         e value target currentAddress = Ok (call ("dec" ++ index) Undefined)) /\
    (exists e, built 0x09 = Some e /\
       forall value target currentAddress,
         e value target currentAddress =
           Ok (call ("set" ++ index)
                 (n.CallExpression "add16"
                    (Arr [n.CallExpression (Str ("get" ++ index)) Undefined;
                          n.CallExpression "getBC" Undefined])))))
    ["IX"; "IY"].
Proof.
  repeat (apply Forall_cons;
          [cbv zeta;
           repeat split;
           (eexists; split; [vm_compute; reflexivity | intros; reflexivity]) |]).
  apply Forall_nil.
Qed.

Section IndexOverrides.

Variables F_CARRY F_ZERO F_PARITY F_SIGN F_HALFCARRY : jsval.
Variable SZP_TABLE : list Z.
Context {Table : Type}.
Variables opcodeTableDDCB opcodeTableFDCB : Table.

Local Notation "'table_at'" :=
  (opcodeTable_at F_CARRY F_ZERO F_PARITY F_SIGN F_HALFCARRY SZP_TABLE).

(** X22: the keys of an index table are 34 distinct opcode bytes, and
    apart from 0xCB (the sub-table) and 0x76 (HALT in the main table)
    each of them is an opcode whose mnemonic in the main table names HL:
    the index tables override instructions on HL only. *)
Theorem index_keys_override_HL (index : string) :
  let keys := map fst (generateIndexTable_literal opcodeTableDDCB opcodeTableFDCB index) in
  List.length keys = 34%nat /\
  NoDup keys /\
  Forall (fun k =>
            0 <= k <= 255 /\
            (k = 0xCB \/ k = 0x76 \/
             exists d name,
               table_at k = Some d /\ name_of d = Some name /\
               String.index 0 "HL" name <> None))
    keys.
Proof.
  cbv zeta. split; [reflexivity |]. split.
  - cbn. repeat constructor; cbn; intuition congruence.
  - cbn [generateIndexTable_literal map fst].
    repeat (apply Forall_cons;
            [split; [lia |];
             first [ left; reflexivity
                   | right; left; reflexivity
                   | right; right; eexists; eexists;
                     split; [vm_compute; reflexivity |];
                     split; [reflexivity | vm_compute; discriminate] ] |]).
    apply Forall_nil.
Qed.

End IndexOverrides.

(* ===================================================================== *)
(** ** [toHex] *)
(* ===================================================================== *)

Lemma digit_value_hex_digit (d : Z) :
  0 <= d < 16 -> digit_value (upper_ascii (hex_digit d)) = Some d.
Proof.
  intros H.
  assert (C : d = 0 \/ d = 1 \/ d = 2 \/ d = 3 \/ d = 4 \/ d = 5 \/ d = 6 \/ d = 7 \/
              d = 8 \/ d = 9 \/ d = 10 \/ d = 11 \/ d = 12 \/ d = 13 \/ d = 14 \/
              d = 15) by lia.
  repeat (destruct C as [-> | C]; [reflexivity |]). subst. reflexivity.
Qed.

(** The digits [hex_digits] puts in front of [acc] are as many as [m]
    needs, and read back as [m]. *)
Lemma hex_digits_spec (fuel : nat) :
  forall (m : Z) (acc : string),
    0 <= m < 16 ^ (Z.of_nat fuel + 1) ->
    exists k : nat,
      (m = 0 /\ k = 1%nat \/ 16 ^ (Z.of_nat k - 1) <= m < 16 ^ Z.of_nat k) /\
      (1 <= k)%nat /\
      String.length (hex_digits fuel m acc) = (k + String.length acc)%nat /\
      forall a,
        hex_value (toUpperCase (hex_digits fuel m acc)) a =
        hex_value (toUpperCase acc) (a * 16 ^ Z.of_nat k + m).
Proof.
  induction fuel as [| fuel IH]; intros m acc Hm.
  - exists 1%nat. cbn [hex_digits].
    change (16 ^ (Z.of_nat 0 + 1)) with 16 in Hm.
    split; [| split; [lia | split; [reflexivity |]]].
    + destruct (Z.eq_dec m 0); [left; now split | right].
      change (16 ^ (Z.of_nat 1 - 1)) with 1. change (16 ^ Z.of_nat 1) with 16. lia.
    + intros a. cbn [toUpperCase map_string hex_value].
      rewrite digit_value_hex_digit by (apply Z.mod_pos_bound; lia).
      rewrite Z.mod_small by lia. change (16 ^ Z.of_nat 1) with 16.
      f_equal. lia.
  - cbn [hex_digits].
    assert (Hd : 0 <= m mod 16 < 16) by (apply Z.mod_pos_bound; lia).
    assert (Hq : 0 <= m / 16) by (apply Z.div_pos; lia).
    assert (Hdiv : m = 16 * (m / 16) + m mod 16) by (apply Z.div_mod; lia).
    destruct (Z.eqb_spec (m / 16) 0) as [Hz | Hnz].
    + exists 1%nat.
      assert (Hsmall : 0 <= m < 16) by lia.
      split; [| split; [lia | split; [reflexivity |]]].
      * destruct (Z.eq_dec m 0); [left; now split | right].
        change (16 ^ (Z.of_nat 1 - 1)) with 1. change (16 ^ Z.of_nat 1) with 16. lia.
      * intros a. cbn [toUpperCase map_string hex_value].
        rewrite digit_value_hex_digit by assumption.
        change (16 ^ Z.of_nat 1) with 16. f_equal. lia.
    + assert (Hq' : 0 <= m / 16 < 16 ^ (Z.of_nat fuel + 1)).
      { split; [assumption |].
        apply Z.div_lt_upper_bound; [lia |].
        replace (Z.of_nat (S fuel) + 1) with (Z.succ (Z.of_nat fuel + 1)) in Hm by lia.
        rewrite Z.pow_succ_r in Hm by lia. lia. }
      destruct (IH (m / 16) (String (hex_digit (m mod 16)) acc) Hq')
        as [k [Hk [Hk1 [Hlen Hval]]]].
      exists (S k).
      assert (Hpow : 16 ^ Z.of_nat (S k) = 16 * 16 ^ Z.of_nat k).
      { rewrite Nat2Z.inj_succ, Z.pow_succ_r by lia. reflexivity. }
      assert (Hpow' : 16 ^ Z.of_nat k = 16 * 16 ^ (Z.of_nat k - 1)).
      { replace (Z.of_nat k) with (Z.succ (Z.of_nat k - 1)) at 1 by lia.
        rewrite Z.pow_succ_r by lia. reflexivity. }
      split; [| split; [lia | split]].
      * right. replace (Z.of_nat (S k) - 1) with (Z.of_nat k) by lia.
        rewrite Hpow.
        destruct Hk as [[Hk0 _] | Hk]; [lia |]. lia.
      * rewrite Hlen. cbn [String.length]. lia.
      * intros a. rewrite Hval. cbn [toUpperCase map_string hex_value].
        rewrite digit_value_hex_digit by assumption.
        f_equal. rewrite Hpow. lia.
Qed.

Lemma log2_fuel (m : Z) : 0 <= m -> 0 <= m < 16 ^ (Z.of_nat (Z.to_nat (Z.log2 m)) + 1).
Proof.
  intros H. split; [assumption |].
  rewrite Z2Nat.id by apply Z.log2_nonneg.
  destruct (Z.eq_dec m 0) as [-> | Hne]; [reflexivity |].
  pose proof (Z.log2_spec m ltac:(lia)) as [_ Hlt].
  eapply Z.lt_le_trans; [exact Hlt |].
  replace (Z.succ (Z.log2 m)) with (Z.log2 m + 1) by lia.
  pose proof (Z.log2_nonneg m).
  apply Z.pow_le_mono_l. lia.
Qed.

Lemma length_toUpperCase (s : string) :
  String.length (toUpperCase s) = String.length s.
Proof.
  induction s as [| c s IH]; [reflexivity |].
  cbn [toUpperCase map_string String.length]. f_equal. exact IH.
Qed.

Lemma toUpperCase_String (c : ascii) (s : string) :
  toUpperCase (String c s) = String (upper_ascii c) (toUpperCase s).
Proof. reflexivity. Qed.

(** The digits of [toHex] for a non-negative integer. *)
Lemma toHex_nonneg (dec : Z) :
  0 <= dec ->
  exists (k : nat) (digits : string),
    (dec = 0 /\ k = 1%nat \/ 16 ^ (Z.of_nat k - 1) <= dec < 16 ^ Z.of_nat k) /\
    (1 <= k)%nat /\
    String.length digits = k /\
    (forall a, hex_value digits a = Some (a * 16 ^ Z.of_nat k + dec)) /\
    toHex dec = "0x" ++ (if Nat.odd k then "0" ++ digits else digits).
Proof.
  intros H.
  destruct (hex_digits_spec (Z.to_nat (Z.log2 dec)) dec EmptyString (log2_fuel dec H))
    as [k [Hk [Hk1 [Hlen Hval]]]].
  exists k, (toUpperCase (hex_digits (Z.to_nat (Z.log2 dec)) dec EmptyString)).
  split; [exact Hk |].
  split; [exact Hk1 |].
  split; [rewrite length_toUpperCase, Hlen; cbn; lia |].
  split; [intros a; rewrite Hval; reflexivity |].
  unfold toHex, toString16.
  destruct (Z.ltb_spec dec 0) as [Hneg | _]; [lia |].
  rewrite length_toUpperCase, Hlen. cbn [String.length].
  rewrite Nat.add_0_r. reflexivity.
Qed.

(** X13: [toHex] of a non-negative integer is [0x] followed by an even
    number of upper-case hexadecimal digits that write the integer:
    reading it back gives the integer, so [toHex] is injective there. *)
Theorem toHex_round_trip (dec : Z) :
  0 <= dec ->
  parseHex (toHex dec) = Some dec /\
  Nat.even (String.length (toHex dec)) = true /\
  (forall dec', 0 <= dec' -> toHex dec' = toHex dec -> dec' = dec).
Proof.
  intros H.
  assert (R : forall d, 0 <= d ->
                parseHex (toHex d) = Some d /\
                Nat.even (String.length (toHex d)) = true).
  { intros d Hd.
    destruct (toHex_nonneg d Hd) as [k [digits [Hk [Hk1 [Hlen [Hval ->]]]]]].
    destruct (Nat.odd k) eqn:Ho.
    - split.
      + change (parseHex ("0x" ++ "0" ++ digits)) with (hex_value digits 0).
        rewrite Hval. f_equal; lia.
      + cbn [append String.length]. rewrite Hlen.
        change (Nat.even (S (S (S k)))) with (Nat.even (S k)).
        rewrite Nat.even_succ. exact Ho.
    - split.
      + destruct digits as [| c rest]; [cbn in Hlen; lia |].
        cbn [append parseHex]. rewrite Hval. f_equal; lia.
      + cbn [append String.length]. rewrite Hlen.
        change (Nat.even (S (S k))) with (Nat.even k).
        rewrite <- Nat.negb_odd, Ho. reflexivity. }
  destruct (R dec H) as [Hp He].
  split; [exact Hp |]. split; [exact He |].
  intros dec' H' Heq.
  destruct (R dec' H') as [Hp' _].
  rewrite Heq, Hp in Hp'. congruence.
Qed.

(** X14: [toHex] pads to whole bytes: an integer that needs [k] bytes is
    written with [2 k] digits after [0x]. *)
Theorem toHex_width (dec : Z) (k : nat) :
  (1 <= k)%nat ->
  0 <= dec < 256 ^ Z.of_nat k ->
  k = 1%nat \/ 256 ^ (Z.of_nat k - 1) <= dec ->
  String.length (toHex dec) = (2 + 2 * k)%nat.
Proof.
  intros Hk [H0 Hhi] Hlo.
  destruct (toHex_nonneg dec H0) as [n [digits [Hn [Hn1 [Hlen [_ ->]]]]]].
  assert (P : forall x, 0 <= x -> 256 ^ x = 16 ^ (2 * x)).
  { intros x Hx. rewrite Z.pow_mul_r by lia. reflexivity. }
  rewrite P in Hhi by lia.
  assert (Hle : (n <= 2 * k)%nat).
  { destruct Hn as [[_ ->] | [Hl _]]; [lia |].
    assert (16 ^ (Z.of_nat n - 1) < 16 ^ (2 * Z.of_nat k)) by lia.
    apply Z.pow_lt_mono_r_iff in H; lia. }
  assert (Hge : (2 * k - 1 <= n)%nat).
  { destruct Hlo as [-> | Hlo]; [lia |].
    rewrite P in Hlo by lia.
    destruct Hn as [[-> _] | [_ Hu]].
    - exfalso.
      assert (0 < 16 ^ (2 * (Z.of_nat k - 1))) by (apply Z.pow_pos_nonneg; lia).
      lia.
    - assert (16 ^ (2 * (Z.of_nat k - 1)) < 16 ^ Z.of_nat n) by lia.
      apply Z.pow_lt_mono_r_iff in H; lia. }
  destruct (Nat.odd n) eqn:Ho.
  - apply Nat.odd_spec in Ho. destruct Ho as [m Hm].
    cbn [append String.length]. rewrite Hlen. lia.
  - assert (He : Nat.even n = true) by (rewrite <- Nat.negb_odd, Ho; reflexivity).
    apply Nat.even_spec in He. destruct He as [m Hm].
    cbn [append String.length]. rewrite Hlen. lia.
Qed.

(** X15: on a negative integer [toHex] keeps the minus sign of
    [toString(16)] inside the result, after the pad: the digits are
    those of the magnitude, the pad [0] comes before the sign, and it is
    there exactly when the magnitude alone gets none ([0x-F], [0x0-FF]).
    What it returns is not a hexadecimal literal. *)
Theorem toHex_negative (dec : Z) :
  dec < 0 ->
  exists digits,
    toHex (- dec) =
      "0x" ++ (if Nat.odd (String.length digits) then "0" else EmptyString) ++ digits /\
    toHex dec =
      "0x" ++ (if Nat.odd (String.length digits) then "-" else "0-") ++ digits /\
    parseHex (toHex dec) = None.
Proof.
  intros H.
  set (D := hex_digits (Z.to_nat (Z.log2 (- dec))) (- dec) EmptyString).
  exists (toUpperCase D).
  assert (Hpos : toHex (- dec) =
                 "0x" ++ (if Nat.odd (String.length (toUpperCase D))
                          then "0" else EmptyString) ++ toUpperCase D).
  { unfold toHex, toString16.
    destruct (Z.ltb_spec (- dec) 0) as [Hneg | _]; [lia |].
    fold D. destruct (Nat.odd (String.length (toUpperCase D))); reflexivity. }
  assert (Hneg : toHex dec =
                 "0x" ++ (if Nat.odd (String.length (toUpperCase D))
                          then "-" else "0-") ++ toUpperCase D).
  { unfold toHex, toString16.
    destruct (Z.ltb_spec dec 0) as [_ | Hge]; [| lia].
    fold D. rewrite toUpperCase_String.
    change (upper_ascii "-") with "-"%char.
    cbn [String.length]. rewrite Nat.odd_succ, <- Nat.negb_odd.
    destruct (Nat.odd (String.length (toUpperCase D))); reflexivity. }
  split; [exact Hpos |]. split; [exact Hneg |].
  rewrite Hneg.
  destruct (Nat.odd (String.length (toUpperCase D))); reflexivity.
Qed.

(* ===================================================================== *)
(** ** [copyArrayElements] *)
(* ===================================================================== *)

Lemma store_same (h : heap) (a : nat) (k : Z) (v : jsval) (k' : Z) :
  store h a k v a k' = if Z.eqb k' k then v else h a k'.
Proof. unfold store. now rewrite Nat.eqb_refl. Qed.

Lemma store_other (h : heap) (a : nat) (k : Z) (v : jsval) (a' : nat) :
  a' <> a -> store h a k v a' = h a'.
Proof.
  intros H. unfold store.
  destruct (Nat.eqb_spec a' a); [contradiction | reflexivity].
Qed.

(** X16: between two different arrays, [copyArrayElements] makes
    [dest[destPos + i]] equal to [src[srcPos + i]] for every [i] below
    [length], and changes nothing else: no other index of [dest], no
    other array; with [length] 0 it changes nothing at all. *)
Theorem copyArrayElements_copies (h : heap) (src dest : nat) (srcPos destPos : Z)
    (length : nat) (a : nat) (k : Z) :
  src <> dest ->
  copyArrayElements_Array h src srcPos dest destPos length a k =
    if Nat.eqb a dest && (destPos <=? k) && (k <? destPos + Z.of_nat length)
    then h src (srcPos + (k - destPos))
    else h a k.
Proof.
  intros Hne. revert h.
  induction length as [| n IH]; intros h.
  - cbn [copyArrayElements_Array].
    destruct (Nat.eqb a dest), (Z.leb_spec destPos k),
      (Z.ltb_spec k (destPos + Z.of_nat 0));
      cbn [andb]; try reflexivity; lia.
  - cbn [copyArrayElements_Array]. rewrite IH.
    rewrite (store_other h dest _ _ src Hne).
    destruct (Nat.eqb_spec a dest) as [-> | Ha]; cbn [andb].
    + rewrite store_same.
      destruct (Z.leb_spec destPos k), (Z.ltb_spec k (destPos + Z.of_nat n)),
        (Z.ltb_spec k (destPos + Z.of_nat (S n))), (Z.eqb_spec k (destPos + Z.of_nat n));
        cbn [andb]; try lia; try reflexivity.
      f_equal. lia.
    + now rewrite store_other.
Qed.

(** Within one array, away from the copied range nothing changes, and
    an element of the range gets the value found [srcPos - destPos]
    places to its right at the time it is copied: the one the array had
    before the call if that place is outside the range or to the left,
    the one it has after the call otherwise. *)
Lemma copy_within (a : nat) (srcPos destPos : Z) (length : nat) :
  forall (h : heap) (k : Z),
    copyArrayElements_Array h a srcPos a destPos length a k =
      if (destPos <=? k) && (k <? destPos + Z.of_nat length) then
        if (0 <? srcPos - destPos)
           && (k + (srcPos - destPos) <? destPos + Z.of_nat length)
        then copyArrayElements_Array h a srcPos a destPos length a
               (k + (srcPos - destPos))
        else h a (k + (srcPos - destPos))
      else h a k.
Proof.
  induction length as [| n IH]; intros h k.
  - cbn [copyArrayElements_Array].
    destruct (Z.leb_spec destPos k), (Z.ltb_spec k (destPos + Z.of_nat 0));
      cbn [andb]; try reflexivity; lia.
  - cbn [copyArrayElements_Array].
    set (h' := store h a (destPos + Z.of_nat n) (h a (srcPos + Z.of_nat n))).
    assert (Hout : forall j, ~ (destPos <= j < destPos + Z.of_nat n) ->
                     copyArrayElements_Array h' a srcPos a destPos n a j = h' a j).
    { intros j Hj. rewrite IH.
      destruct (Z.leb_spec destPos j), (Z.ltb_spec j (destPos + Z.of_nat n));
        cbn [andb]; try reflexivity. lia. }
    assert (Hh' : forall j, h' a j = if Z.eqb j (destPos + Z.of_nat n)
                                    then h a (srcPos + Z.of_nat n) else h a j)
      by (intros j; apply store_same).
    destruct (Z.leb_spec destPos k) as [Hlo | Hlo];
      destruct (Z.ltb_spec k (destPos + Z.of_nat (S n))) as [Hhi | Hhi];
      cbn [andb].
    + (* in the range *)
      destruct (Z.eq_dec k (destPos + Z.of_nat n)) as [Hk | Hk].
      * rewrite Hout by lia. rewrite Hh'.
        destruct (Z.eqb_spec k (destPos + Z.of_nat n)); [| contradiction].
        destruct (Z.ltb_spec 0 (srcPos - destPos)),
          (Z.ltb_spec (k + (srcPos - destPos)) (destPos + Z.of_nat (S n)));
          cbn [andb]; try (f_equal; lia).
      * rewrite IH.
        destruct (Z.leb_spec destPos k), (Z.ltb_spec k (destPos + Z.of_nat n));
          cbn [andb]; try lia.
        destruct (Z.ltb_spec 0 (srcPos - destPos)) as [Hd | Hd]; cbn [andb].
        -- destruct (Z.ltb_spec (k + (srcPos - destPos)) (destPos + Z.of_nat n)),
             (Z.ltb_spec (k + (srcPos - destPos)) (destPos + Z.of_nat (S n)));
             try lia; try reflexivity.
           ++ rewrite Hout by lia. reflexivity.
           ++ rewrite Hh'.
              destruct (Z.eqb_spec (k + (srcPos - destPos)) (destPos + Z.of_nat n));
                [lia | reflexivity].
        -- rewrite Hh'.
           destruct (Z.eqb_spec (k + (srcPos - destPos)) (destPos + Z.of_nat n));
             [lia | reflexivity].
    + rewrite Hout by lia. rewrite Hh'.
      destruct (Z.eqb_spec k (destPos + Z.of_nat n)); [lia | reflexivity].
    + rewrite Hout by lia. rewrite Hh'.
      destruct (Z.eqb_spec k (destPos + Z.of_nat n)); [lia | reflexivity].
    + rewrite Hout by lia. rewrite Hh'.
      destruct (Z.eqb_spec k (destPos + Z.of_nat n)); [lia | reflexivity].
Qed.

(** X17: within one array, a copy to the right ([destPos >= srcPos]) or
    between ranges that do not overlap moves the elements as they were
    before the call, like [memmove], and changes nothing else. *)
Theorem copyArrayElements_within_forward (h : heap) (a : nat) (srcPos destPos : Z)
    (length : nat) (b : nat) (k : Z) :
  srcPos <= destPos \/ destPos + Z.of_nat length <= srcPos ->
  copyArrayElements_Array h a srcPos a destPos length b k =
    if Nat.eqb b a && (destPos <=? k) && (k <? destPos + Z.of_nat length)
    then h a (srcPos + (k - destPos))
    else h b k.
Proof.
  intros Hd.
  destruct (Nat.eqb_spec b a) as [-> | Hb]; cbn [andb].
  - rewrite copy_within.
    destruct (Z.leb_spec destPos k), (Z.ltb_spec k (destPos + Z.of_nat length));
      cbn [andb]; try reflexivity.
    destruct (Z.ltb_spec 0 (srcPos - destPos)),
      (Z.ltb_spec (k + (srcPos - destPos)) (destPos + Z.of_nat length));
      cbn [andb]; try lia; f_equal; lia.
  - clear Hd. revert h. induction length as [| n IH]; intros h; [reflexivity |].
    cbn [copyArrayElements_Array]. rewrite IH. now rewrite store_other.
Qed.

(** X18: within one array, a copy to the left by [srcPos - destPos]
    places reads elements it has already written: an element of the
    range ends with the value the array had, before the call, a whole
    number [m] of such steps to its right, at the first place past the
    end of the range.  Where the ranges overlap [m] is above 1 for the
    first elements, so the copy is not the shift [memmove] would do. *)
Theorem copyArrayElements_within_backward (h : heap) (a : nat) (srcPos destPos : Z)
    (length : nat) (k : Z) :
  0 < srcPos - destPos ->
  destPos <= k < destPos + Z.of_nat length ->
  exists m,
    1 <= m /\
    k + (m - 1) * (srcPos - destPos) < destPos + Z.of_nat length
      <= k + m * (srcPos - destPos) /\
    copyArrayElements_Array h a srcPos a destPos length a k =
      h a (k + m * (srcPos - destPos)).
Proof.
  intros Hd.
  remember (Z.to_nat (destPos + Z.of_nat length - k)) as fuel eqn:Hf.
  revert k Hf.
  induction fuel as [fuel IH] using lt_wf_ind. intros k Hf Hk.
  rewrite copy_within.
  destruct (Z.leb_spec destPos k), (Z.ltb_spec k (destPos + Z.of_nat length));
    cbn [andb]; try lia.
  destruct (Z.ltb_spec 0 (srcPos - destPos)); [| lia]. cbn [andb].
  destruct (Z.ltb_spec (k + (srcPos - destPos)) (destPos + Z.of_nat length)) as [Hin | Hout].
  - destruct (IH (Z.to_nat (destPos + Z.of_nat length - (k + (srcPos - destPos))))
                ltac:(lia) (k + (srcPos - destPos)) eq_refl ltac:(lia))
      as [m [Hm [Hb Hv]]].
    exists (m + 1). split; [lia |]. split; [lia |].
    rewrite Hv. f_equal. lia.
  - exists 1. split; [lia |]. split; [lia |]. f_equal. lia.
Qed.

(** [[1, 2, 3, 4]] copied one place to the left over three elements
    becomes [[4, 4, 4, 4]]. *)
Example copyArrayElements_smear :
  let a := fun k => nth (Z.to_nat k) [Num 1; Num 2; Num 3; Num 4] Undefined in
  map (copyArrayElements_Array (fun _ => a) 0%nat 1 0%nat 0 3 0%nat) [0; 1; 2; 3] =
  [Num 4; Num 4; Num 4; Num 4].
Proof. reflexivity. Qed.

Lemma length_set_nth (i : nat) (b : Z) (v : list Z) :
  List.length (set_nth i b v) = List.length v.
Proof.
  revert i. induction v as [| x v IH]; intros [| i]; cbn; try reflexivity.
  now rewrite IH.
Qed.

Lemma nth_set_nth (i : nat) (b : Z) (v : list Z) (k : nat) :
  (i < List.length v)%nat ->
  nth k (set_nth i b v) 0 = if Nat.eqb k i then b else nth k v 0.
Proof.
  revert i k. induction v as [| x v IH]; intros i k Hi; [cbn in Hi; lia |].
  destruct i as [| i], k as [| k]; cbn; try reflexivity.
  apply IH. cbn in Hi. lia.
Qed.

(** X19: with positions that are not negative, the [DataView] copy
    returns exactly when [length] is 0 or both ranges end within their
    views, and it leaves every view at its length; otherwise it throws
    a [RangeError] at its first access, before any byte is written. *)
Theorem copyArrayElements_DataView_bounds (h : views) (src dest : nat)
    (srcPos destPos : Z) (length : nat) :
  0 <= srcPos -> 0 <= destPos ->
  if (length =? 0)%nat
     || ((srcPos + Z.of_nat length <=? Z.of_nat (List.length (h src)))
         && (destPos + Z.of_nat length <=? Z.of_nat (List.length (h dest))))
  then exists h',
      copyArrayElements_DataView h src srcPos dest destPos length = (h', Returned) /\
      forall a, List.length (h' a) = List.length (h a)
  else copyArrayElements_DataView h src srcPos dest destPos length = (h, RangeError).
Proof.
  intros Hs Hd.
  destruct length as [| n]; [exists h; now split |].
  cbn [Nat.eqb orb].
  destruct (Z.leb_spec (srcPos + Z.of_nat (S n)) (Z.of_nat (List.length (h src))))
    as [Hsrc | Hsrc];
    destruct (Z.leb_spec (destPos + Z.of_nat (S n)) (Z.of_nat (List.length (h dest))))
    as [Hdst | Hdst]; cbn [andb].
  - revert h Hsrc Hdst. induction (S n) as [| m IH]; intros h Hsrc Hdst.
    + exists h. now split.
    + cbn [copyArrayElements_DataView]. unfold getInt8, setInt8, in_bounds.
      destruct (Z.leb_spec 0 (srcPos + Z.of_nat m)); [| lia].
      destruct (Z.ltb_spec (srcPos + Z.of_nat m) (Z.of_nat (List.length (h src)))); [| lia].
      destruct (Z.leb_spec 0 (destPos + Z.of_nat m)); [| lia].
      destruct (Z.ltb_spec (destPos + Z.of_nat m) (Z.of_nat (List.length (h dest)))); [| lia].
      cbn [andb].
      match goal with
      | |- context [copyArrayElements_DataView ?g _ _ _ _ _] => set (h1 := g)
      end.
      assert (L : forall a, List.length (h1 a) = List.length (h a)).
      { intros a. unfold h1. destruct (Nat.eqb_spec a dest) as [-> | _]; [| reflexivity].
        apply length_set_nth. }
      destruct (IH h1) as [h' [E Hlen]]; [rewrite L; lia | rewrite L; lia |].
      exists h'. split; [exact E |].
      intros a. now rewrite Hlen, L.
  - cbn [copyArrayElements_DataView]. unfold getInt8, setInt8, in_bounds.
    destruct (Z.leb_spec 0 (srcPos + Z.of_nat n)); [| lia].
    destruct (Z.ltb_spec (srcPos + Z.of_nat n) (Z.of_nat (List.length (h src)))); [| lia].
    destruct (Z.ltb_spec (destPos + Z.of_nat n) (Z.of_nat (List.length (h dest)))); [lia |].
    cbn [andb]. now rewrite andb_false_r.
  - cbn [copyArrayElements_DataView]. unfold getInt8, in_bounds.
    destruct (Z.ltb_spec (srcPos + Z.of_nat n) (Z.of_nat (List.length (h src)))); [lia |].
    now rewrite andb_false_r.
  - cbn [copyArrayElements_DataView]. unfold getInt8, in_bounds.
    destruct (Z.ltb_spec (srcPos + Z.of_nat n) (Z.of_nat (List.length (h src)))); [lia |].
    now rewrite andb_false_r.
Qed.


(* ===================================================================== *)
(** ** [getPrefix] *)
(* ===================================================================== *)

Lemma some_prefix_spec (obj : string -> bool) (arr : list string) :
  (some_prefix obj arr (Bool false) = Bool false /\
   forall p, In p arr -> obj p = false) \/
  (exists before p after,
     arr = (before ++ p :: after)%list /\
     obj p = true /\
     (forall q, In q before -> obj q = false) /\
     some_prefix obj arr (Bool false) = Str p).
Proof.
  induction arr as [| x arr IH].
  - left. split; [reflexivity | intros p []].
  - cbn [some_prefix]. destruct (obj x) eqn:Hx.
    + right. exists [], x, arr. split; [reflexivity |].
      split; [exact Hx |]. split; [intros q [] | reflexivity].
    + destruct IH as [[E Hnone] | [before [p [after [-> [Hp [Hb E]]]]]]].
      * left. split; [exact E |].
        intros p [<- | Hin]; [exact Hx | now apply Hnone].
      * right. exists (x :: before), p, after.
        split; [reflexivity |]. split; [exact Hp |].
        split; [| exact E].
        intros q [<- | Hin]; [exact Hx | now apply Hb].
Qed.

(** X21: [getPrefix] returns [false] exactly when [obj] (or [document],
    when [obj] is not passed) has none of the names of [arr]; otherwise
    it returns the first name of [arr], in the order of the array, that
    [obj] has. *)
Theorem getPrefix_first (document : string -> bool) (arr : list string)
    (obj : option (string -> bool)) :
  let has := match obj with
             | None => document
             | Some obj => obj
             end in
  (getPrefix document arr obj = Bool false <-> forall p, In p arr -> has p = false) /\
  (forall p, getPrefix document arr obj = Str p ->
     exists before after,
       arr = (before ++ p :: after)%list /\
       has p = true /\
       forall q, In q before -> has q = false) /\
  (getPrefix document arr obj = Bool false \/
   exists p, getPrefix document arr obj = Str p).
Proof.
  intros has. unfold getPrefix. fold has.
  destruct (some_prefix_spec has arr)
    as [[E Hnone] | [before [p [after [Harr [Hp [Hb E]]]]]]].
  - rewrite E. split; [split; [intros _; exact Hnone | reflexivity] |].
    split; [intros p Hp; discriminate | now left].
  - rewrite E. split; [| split].
    + split; [discriminate |].
      intros Hnone. rewrite Hnone in Hp; [discriminate |].
      rewrite Harr. apply in_or_app. right. now left.
    + intros p' Hp'. injection Hp' as <-. exists before, after. now repeat split.
    + right. now exists p.
Qed.

(* ===================================================================== *)
(** ** The theorems at concrete inputs *)
(* ===================================================================== *)



(** Slot 0x41 is [LD B,C]. *)
Lemma load_block_encoding_LD_B_C :
  exists d,
    z80_opcodeTable_at 0x41 = Some d /\
    name_of d = Some "LD B,C" /\
    match ast_of d with
    | Some e =>
        (0 <> 6 /\ 1 <> 6 /\
         forall value target currentAddress,
           e value target currentAddress =
             Ok (n.ExpressionStatement
                   (n.AssignmentExpression "=" (n.Register "b") (n.Register "c")))) \/
        (0 = 7 /\ 1 = 6 /\
         forall value target currentAddress,
           e value target currentAddress =
             Ok (n.ExpressionStatement
                   (n.AssignmentExpression "=" (n.Register "a")
                      (o.READ_MEM8 (n.CallExpression "getHL" Undefined)))))
    | None => 0 = 6 \/ (1 = 6 /\ 0 <> 7)
    end.
Proof.
  apply (load_block_encoding z80_F_CARRY z80_F_ZERO z80_F_PARITY
           z80_F_SIGN z80_F_HALFCARRY sample_SZP_TABLE 0 1);
    [lia | lia | intros H; discriminate H].
Defined.

(** Slot 0xA3 is [AND A,E]. *)
Lemma alu_block_encoding_AND_E :
  exists d,
    z80_opcodeTable_at 0xA3 = Some d /\
    name_of d = Some "AND A,E" /\
    match ast_of d with
    | Some e =>
        3 <> 6 /\
        exists f,
          alu_combinator z80_F_HALFCARRY sample_SZP_TABLE 4 "e" = Some f /\
          forall value target currentAddress,
            e value target currentAddress = f value target currentAddress
    | None => 3 = 6 \/ In 4 [1; 3; 7]
    end.
Proof.
  apply (alu_block_encoding z80_F_CARRY z80_F_ZERO z80_F_PARITY
           z80_F_SIGN z80_F_HALFCARRY sample_SZP_TABLE 4 3); lia.
Defined.

(** Slots 0x1E, 0x1C and 0x1D are [LD E,n], [INC E] and [DEC E]. *)
Lemma immediate_block_encoding_E :
  (exists d e,
     z80_opcodeTable_at 0x1E = Some d /\
     name_of d = Some "LD E,n" /\
     operand_of d = Some UINT8 /\
     ast_of d = Some e /\
     forall value target currentAddress,
       e value target currentAddress =
         Ok (n.ExpressionStatement
               (n.AssignmentExpression "=" (n.Register "e") (n.Literal value)))) /\
  (exists d,
     z80_opcodeTable_at 0x1C = Some d /\
     name_of d = Some "INC E" /\
     operand_of d = None /\
     match ast_of d with
     | Some e =>
         In 3 [0; 1; 2; 3; 7] /\
         forall value target currentAddress,
           e value target currentAddress =
             Ok (n.ExpressionStatement
                   (n.AssignmentExpression "=" (n.Register "e")
                      (n.CallExpression "inc8" (n.Register "e"))))
     | None => In 3 [4; 5; 6]
     end) /\
  (exists d,
     z80_opcodeTable_at 0x1D = Some d /\
     name_of d = Some "DEC E" /\
     operand_of d = None /\
     match ast_of d with
     | Some e =>
         In 3 [0; 1; 2; 3; 7] /\
         forall value target currentAddress,
           e value target currentAddress =
             Ok (n.ExpressionStatement
                   (n.AssignmentExpression "=" (n.Register "e")
                      (n.CallExpression "dec8" (n.Register "e"))))
     | None => In 3 [4; 5; 6]
     end).
Proof.
  apply (immediate_block_encoding z80_F_CARRY z80_F_ZERO z80_F_PARITY
           z80_F_SIGN z80_F_HALFCARRY sample_SZP_TABLE 3); lia.
Defined.

(** Slot 0x11 is [LD DE,nn]. *)
Lemma pair_block_encoding_DE :
  exists d e,
    z80_opcodeTable_at 0x11 = Some d /\
    name_of d = Some "LD DE,nn" /\
    operand_of d = Some UINT16 /\
    ast_of d = Some e /\
    forall value target currentAddress,
      e value target currentAddress =
        Ok (n.ExpressionStatement (n.CallExpression "setDE" (n.Literal value))).
Proof.
  apply (pair_block_encoding z80_F_CARRY z80_F_ZERO z80_F_PARITY
           z80_F_SIGN z80_F_HALFCARRY sample_SZP_TABLE 1); lia.
Defined.


(** Slot 0xCF is [RST 08H]. *)
Lemma restart_encoding_08 :
  exists d e,
    z80_opcodeTable_at 0xCF = Some d /\
    name_of d = Some "RST 08H" /\
    ast_of d = Some e /\
    operand_of d = None /\
    forall value target currentAddress,
      e value target currentAddress =
        Ok (Arr [
          n.ExpressionStatement
            (n.CallExpression "push1" (n.Literal currentAddress));
          n.ExpressionStatement
            (n.AssignmentExpression "=" (n.Identifier "pc") (n.Literal 8));
          n.ReturnStatement Undefined
        ]).
Proof.
  apply (restart_encoding z80_F_CARRY z80_F_ZERO z80_F_PARITY
           z80_F_SIGN z80_F_HALFCARRY sample_SZP_TABLE 1); lia.
Defined.

(** [toHex(255)] is [0xFF]. *)
Lemma toHex_round_trip_255 :
  parseHex (toHex 255) = Some 255 /\
  Nat.even (String.length (toHex 255)) = true /\
  (forall dec', 0 <= dec' -> toHex dec' = toHex 255 -> dec' = 255).
Proof. apply toHex_round_trip. lia. Defined.

(** A 16-bit address takes four digits. *)
Lemma toHex_width_word : String.length (toHex 0x1234) = 6%nat.
Proof.
  apply (toHex_width 0x1234 2); [lia | cbn; lia | right; cbn; lia].
Defined.

(** [toHex(-255)] is [0x0-FF]. *)
Lemma toHex_negative_255 :
  exists digits,
    toHex (- -255) =
      "0x" ++ (if Nat.odd (String.length digits) then "0" else EmptyString) ++ digits /\
    toHex (-255) =
      "0x" ++ (if Nat.odd (String.length digits) then "-" else "0-") ++ digits /\
    parseHex (toHex (-255)) = None.
Proof. apply toHex_negative. lia. Defined.

Lemma copyArrayElements_copies_sample :
  copyArrayElements_Array sample_heap 0 1 1 0 2 1%nat 1 =
    if Nat.eqb 1 1 && (0 <=? 1) && (1 <? 0 + Z.of_nat 2)
    then sample_heap 0%nat (1 + (1 - 0))
    else sample_heap 1%nat 1.
Proof.
  apply copyArrayElements_copies. intros H. discriminate H.
Defined.

Lemma copyArrayElements_within_forward_sample :
  copyArrayElements_Array sample_heap 0 0 0 1 3 0%nat 2 =
    if Nat.eqb 0 0 && (1 <=? 2) && (2 <? 1 + Z.of_nat 3)
    then sample_heap 0%nat (0 + (2 - 1))
    else sample_heap 0%nat 2.
Proof.
  apply copyArrayElements_within_forward. left. lia.
Defined.

Lemma copyArrayElements_within_backward_sample :
  exists m,
    1 <= m /\
    0 + (m - 1) * (1 - 0) < 0 + Z.of_nat 3 <= 0 + m * (1 - 0) /\
    copyArrayElements_Array sample_heap 0 1 0 0 3 0%nat 0 =
      sample_heap 0%nat (0 + m * (1 - 0)).
Proof.
  apply copyArrayElements_within_backward; lia.
Defined.

Lemma copyArrayElements_DataView_bounds_sample :
  copyArrayElements_DataView sample_views 0 2 1 0 3 = (sample_views, RangeError).
Proof.
  apply (copyArrayElements_DataView_bounds sample_views 0 1 2 0 3); lia.
Defined.

